(** * Person tracker: identity gallery, capture throttling and catalog

    A shallow embedding of [tracker.py] (class [PersonTracker]).

    - Python [str] is [string]; [dict] is stdpp's [gmap]; the two parallel
      lists [known_faces] / [known_names] are Rocq lists.
    - [time.time()] readings, face distances and the similarity threshold
      are Python floats; they are modelled as rationals [Q] (every finite
      float is a rational, and float comparison is exact).  NaN and the
      rounding of float subtraction are outside the model.
    - The clock and the file system are not under the program's control:
      every clock reading and every possible I/O failure is an explicit
      argument of the operation that performs it.
    - A raised Python exception is the [Raise] result; the state reached
      before the exception is kept, as Python keeps the mutations made.
    - The face library ([face_recognition], [cv2]) is a set of section
      variables. *)

From Stdlib Require Import Ascii String QArith Qabs Lqa.
From stdpp Require Import gmap strings list pretty.

Local Open Scope string_scope.
Local Open Scope list_scope.
Local Open Scope Z_scope.

(** ** Python string primitives used by the tracker *)

Module PyStr.

Definition chars (s : string) : list ascii := String.list_ascii_of_string s.
Definition of_chars (l : list ascii) : string := String.string_of_list_ascii l.

(** [s.startswith(p)] *)
Definition startswith (p s : string) : bool := String.prefix p s.

Fixpoint prefix_chars (p s : list ascii) : bool :=
  match p, s with
  | [], _ => true
  | _ :: _, [] => false
  | a :: p', b :: s' => if Ascii.eqb a b then prefix_chars p' s' else false
  end.

(** [s.endswith(suf)] *)
Definition endswith (suf s : string) : bool :=
  prefix_chars (rev (chars suf)) (rev (chars s)).

(** [s.lower()] on ASCII letters; bytes above 127 are left alone. *)
Definition lower_char (c : ascii) : ascii :=
  let n := Ascii.nat_of_ascii c in
  if ((65 <=? n)%nat && (n <=? 90)%nat)%bool
  then Ascii.ascii_of_nat (n + 32) else c.

Definition lower (s : string) : string := of_chars (map lower_char (chars s)).

(** [s.split(sep)] for a one-character separator: the pieces between
    the occurrences of [sep]; the result always has at least one piece. *)
Fixpoint split_chars (sep : ascii) (cur : list ascii) (s : list ascii)
  : list (list ascii) :=
  match s with
  | [] => [rev cur]
  | c :: s' =>
      if Ascii.eqb c sep then rev cur :: split_chars sep [] s'
      else split_chars sep (c :: cur) s'
  end.

Definition split (sep : ascii) (s : string) : list string :=
  map of_chars (split_chars sep [] (chars s)).

(** Whitespace stripped by [int()] from an ASCII string: tab, LF, VT, FF,
    CR and space.  The separators FS..US (28..31) are whitespace for
    [str.isspace] but not for [int()], which rejects them. *)
Definition is_space (c : ascii) : bool :=
  let n := Ascii.nat_of_ascii c in
  (((9 <=? n)%nat && (n <=? 13)%nat) || (n =? 32)%nat)%bool.

Fixpoint lstrip (s : list ascii) : list ascii :=
  match s with
  | c :: s' => if is_space c then lstrip s' else s
  | [] => []
  end.

Definition strip (s : list ascii) : list ascii := rev (lstrip (rev (lstrip s))).

Definition digit_val (c : ascii) : option Z :=
  let n := Ascii.nat_of_ascii c in
  if ((48 <=? n)%nat && (n <=? 57)%nat)%bool then Some (Z.of_nat n - 48) else None.

Fixpoint digits_from (acc : Z) (s : list ascii) : option Z :=
  match s with
  | [] => Some acc
  | c :: s' =>
      match digit_val c with
      | Some d => digits_from (10 * acc + d) s'
      | None => None
      end
  end.

Definition unsigned (s : list ascii) : option Z :=
  match s with
  | [] => None
  | _ :: _ => digits_from 0 s
  end.

(** [int(s)] in base ten: surrounding whitespace, an optional sign, at
    least one digit.  [None] is [ValueError].  The digit-group
    separator [_] cannot occur in the only caller (the argument is a
    piece of a split at [_]).  Only ASCII is modelled: a string is a
    sequence of bytes here, so the decimal digits and the whitespace that
    Python accepts beyond ASCII are neither digits nor whitespace. *)
Definition int (s : string) : option Z :=
  match strip (chars s) with
  | "-"%char :: ds => Z.opp <$> unsigned ds
  | "+"%char :: ds => unsigned ds
  | ds => unsigned ds
  end.

(** [os.path.join(a, b)] for two components. *)
Definition path_join (a b : string) : string :=
  if startswith "/" b then b
  else if String.eqb a "" then b
  else if endswith "/" a then a +:+ b
  else a +:+ "/" +:+ b.

End PyStr.

(** ** Rational comparisons as the Python float comparisons *)

Definition Qltb (x y : Q) : bool := negb (Qle_bool y x).
Definition Qgeb (x y : Q) : bool := Qle_bool y x.

(** [np.min] over a non-empty array, seeded with its first element. *)
Fixpoint np_min_from (best : Q) (l : list Q) : Q :=
  match l with
  | [] => best
  | x :: l' => np_min_from (if Qltb x best then x else best) l'
  end.

(** [np.argmin]: the index of the first occurrence of the minimum. *)
Fixpoint np_argmin_from (best_i : nat) (best : Q) (i : nat) (l : list Q) : nat :=
  match l with
  | [] => best_i
  | x :: l' =>
      if Qltb x best then np_argmin_from i x (S i) l'
      else np_argmin_from best_i best (S i) l'
  end.

Definition np_min (l : list Q) : option Q :=
  match l with
  | [] => None
  | x :: l' => Some (np_min_from x l')
  end.

Definition np_argmin (l : list Q) : option nat :=
  match l with
  | [] => None
  | x :: l' => Some (np_argmin_from 0%nat x 1%nat l')
  end.

(** ** Results and exceptions *)

Inductive Exn : Type :=
| OSError
| JSONDecodeError
| CvError
| ValueError
| IndexError
| CameraError.

Inductive Res (A : Type) : Type :=
| Ok (a : A)
| Raise (e : Exn).
Arguments Ok {A} a.
Arguments Raise {A} e.

(** A computation over a state [S] that may raise; the state survives. *)
Definition M (S A : Type) : Type := S -> S * Res A.

Definition ret {S A} (a : A) : M S A := fun s => (s, Ok a).
Definition raise {S A} (e : Exn) : M S A := fun s => (s, Raise e).
Definition bind {S A B} (m : M S A) (k : A -> M S B) : M S B :=
  fun s => match m s with
           | (s', Ok a) => k a s'
           | (s', Raise e) => (s', Raise e)
           end.
Definition modify {S} (f : S -> S) : M S unit := fun s => (f s, Ok tt).

Declare Scope py_scope.
Delimit Scope py_scope with py.
Notation "'let!' x ':=' m 'in' k" := (bind m (fun x => k))
  (at level 10, x name, m at level 100, k at level 200) : py_scope.
Notation "'exec!' m 'in' k" := (bind m (fun _ => k))
  (at level 10, m at level 100, k at level 200) : py_scope.

(** ** Data model *)

(** One record of the ledger [metadata.json]. *)
Record Meta : Type := mkMeta {
  created : string;
  total_images : Z;
  last_seen : string
}.

(** A face location as [face_recognition] gives it. *)
Record Location : Type := mkLoc {
  loc_top : Z; loc_right : Z; loc_bottom : Z; loc_left : Z
}.

Inductive LogMsg : Type :=
| LoadedExisting (person_id : string)
| CouldNotLoadReference (person_id : string) (e : Exn)
| SavedImage (filepath : string)
| RegisteredNew (person_id : string)
| StartingTracking
| FailedToReadFrame
| StoppedByUser
| ErrorDuringTracking (e : Exn)
| CleaningUp
| CleanupCompleted.

Section Model.

(** The external collaborators. *)
Context {Embedding Frame Image : Type}.
(** [face_recognition.face_distance([known], query)], one entry. *)
Variable face_distance : Embedding -> Embedding -> Q.
(** [face_recognition.face_encodings(image)] on a loaded reference. *)
Variable face_encodings : Image -> list Embedding.
(** [frame.shape[:2]] as (height, width). *)
Variable frame_shape : Frame -> Z * Z.
(** [frame[top:bottom, left:right]]. *)
Variable crop : Frame -> Z -> Z -> Z -> Z -> Image.

(** *** The file system under [database_path] *)

Inductive FileContent : Type :=
| Readable (img : Image)
| Corrupt.

(** One entry of [os.listdir(database_path)]; for a directory, [de_files]
    is its own listing, in listing order. *)
Record DirEnt : Type := mkDirEnt {
  de_name : string;
  de_isdir : bool;
  de_files : list (string * FileContent)
}.

Inductive MetaFile : Type :=
| MetaAbsent
| MetaCorrupt
| MetaPresent (m : gmap string Meta).

Record FS : Type := mkFS {
  entries : list DirEnt;
  metadata_json : MetaFile
}.

(** *** The tracker object *)

Record Tracker : Type := mkTracker {
  database_path : string;
  update_interval : Z;
  similarity_threshold : Q;
  min_face_size : Z * Z;
  detection_confidence : Q;
  known_faces : list Embedding;
  known_names : list string;
  person_count : Z;
  last_update_time : gmap string Q;
  person_metadata : gmap string Meta;
  log : list LogMsg
}.

Definition set_known (fs : list Embedding) (ns : list string) (t : Tracker) :=
  mkTracker (database_path t) (update_interval t) (similarity_threshold t)
    (min_face_size t) (detection_confidence t) fs ns (person_count t)
    (last_update_time t) (person_metadata t) (log t).

Definition set_person_count (c : Z) (t : Tracker) :=
  mkTracker (database_path t) (update_interval t) (similarity_threshold t)
    (min_face_size t) (detection_confidence t) (known_faces t) (known_names t)
    c (last_update_time t) (person_metadata t) (log t).

Definition set_last_update_time (m : gmap string Q) (t : Tracker) :=
  mkTracker (database_path t) (update_interval t) (similarity_threshold t)
    (min_face_size t) (detection_confidence t) (known_faces t) (known_names t)
    (person_count t) m (person_metadata t) (log t).

Definition set_person_metadata (m : gmap string Meta) (t : Tracker) :=
  mkTracker (database_path t) (update_interval t) (similarity_threshold t)
    (min_face_size t) (detection_confidence t) (known_faces t) (known_names t)
    (person_count t) (last_update_time t) m (log t).

Definition add_log (msg : LogMsg) (t : Tracker) :=
  mkTracker (database_path t) (update_interval t) (similarity_threshold t)
    (min_face_size t) (detection_confidence t) (known_faces t) (known_names t)
    (person_count t) (last_update_time t) (person_metadata t) (log t ++ [msg]).

(** The attribute values [__init__] sets before it loads the database. *)
Definition init_tracker (db : string) (interval : Z) (threshold : Q)
    (min_size : Z * Z) (confidence : Q) : Tracker :=
  mkTracker db interval threshold min_size confidence [] [] 0 ∅ ∅ [].

(** *** [_load_existing_database] *)

Definition is_image_name (f : string) : bool :=
  let l := PyStr.lower f in
  (PyStr.endswith ".jpg" l || PyStr.endswith ".jpeg" l || PyStr.endswith ".png" l)%bool.

(** [int(person_id.split('_')[1])]; [None] when either step raises. *)
Definition person_num (person_id : string) : option Z :=
  match PyStr.split "_"%char person_id !! 1%nat with
  | Some piece => PyStr.int piece
  | None => None
  end.

Definition exn_of_person_num (person_id : string) : Exn :=
  match PyStr.split "_"%char person_id !! 1%nat with
  | Some _ => ValueError
  | None => IndexError
  end.

(** The body of the [for person_folder in os.listdir(...)] loop. *)
Definition load_entry (t : Tracker) (ent : DirEnt) : Tracker :=
  if (de_isdir ent && PyStr.startswith "Person_" (de_name ent))%bool then
    let person_id := de_name ent in
    let images := filter (fun f => is_image_name (fst f) = true) (de_files ent) in
    match images with
    | [] => t
    | (_, Corrupt) :: _ => add_log (CouldNotLoadReference person_id OSError) t
    | (_, Readable reference_image) :: _ =>
        match face_encodings reference_image with
        | [] => t
        | enc :: _ =>
            let t1 := set_known (known_faces t ++ [enc])
                                (known_names t ++ [person_id]) t in
            let t2 := set_last_update_time
                        (<[person_id := 0%Q]> (last_update_time t1)) t1 in
            match person_num person_id with
            | Some n =>
                add_log (LoadedExisting person_id)
                  (set_person_count (Z.max (person_count t2) n) t2)
            | None =>
                add_log (CouldNotLoadReference person_id
                           (exn_of_person_num person_id)) t2
            end
        end
    end
  else t.

(** [_load_existing_database]: the ledger first, then the folders.  The
    database directory itself exists ([__init__] has just created it). *)
Definition _load_existing_database (fs : FS) : M Tracker unit :=
  fun t =>
    match metadata_json fs with
    | MetaCorrupt => (t, Raise JSONDecodeError)
    | MetaAbsent => (foldl load_entry t (entries fs), Ok tt)
    | MetaPresent m =>
        (foldl load_entry (set_person_metadata m t) (entries fs), Ok tt)
    end.

(** *** [_register_new_person]; [now] is the reading of [time.time()]. *)
Definition _register_new_person (face_encoding : Embedding) (now : Q)
  : M Tracker string :=
  fun t =>
    let t1 := set_person_count (person_count t + 1) t in
    let person_id := "Person_" +:+ pretty (person_count t1) in
    let t2 := set_known (known_faces t1 ++ [face_encoding])
                        (known_names t1 ++ [person_id]) t1 in
    let t3 := set_last_update_time
                (<[person_id := now]> (last_update_time t2)) t2 in
    (add_log (RegisteredNew person_id) t3, Ok person_id).

(** *** [_identify_person] *)
Definition _identify_person (face_encoding : Embedding) (t : Tracker)
  : Res (option string) :=
  let distances := map (fun known => face_distance known face_encoding)
                       (known_faces t) in
  match np_min distances, np_argmin distances with
  | Some min_distance, Some best_match_index =>
      if Qltb min_distance (similarity_threshold t) then
        match known_names t !! best_match_index with
        | Some name => Ok (Some name)
        | None => Raise IndexError
        end
      else Ok None
  | _, _ => Ok None
  end.

(** *** [_should_update_person]; [current_time] is [time.time()]. *)
Definition _should_update_person (person_id : string) (current_time : Q)
    (t : Tracker) : bool :=
  let last_update := default 0%Q (last_update_time t !! person_id) in
  Qgeb (current_time - last_update)%Q (inject_Z (update_interval t)).

(** *** The world: the tracker object and the disk it writes to *)

Record World : Type := mkWorld {
  trk : Tracker;
  disk : FS
}.

Definition on_trk (f : Tracker -> Tracker) (w : World) : World :=
  mkWorld (f (trk w)) (disk w).

Definition on_disk (f : FS -> FS) (w : World) : World :=
  mkWorld (trk w) (f (disk w)).

(** [os.path.exists(os.path.join(database_path, name))] *)
Definition fs_exists (name : string) (fs : FS) : bool :=
  existsb (fun ent => String.eqb (de_name ent) name) (entries fs).

(** [os.makedirs(folder, exist_ok=True)] when it succeeds. *)
Definition fs_makedirs (name : string) (fs : FS) : FS :=
  if fs_exists name fs then fs
  else mkFS (entries fs ++ [mkDirEnt name true []]) (metadata_json fs).

(** Writing [fname] in a directory listing: an existing file of that name
    is replaced in place, a new one is listed last. *)
Fixpoint write_in (fname : string) (c : FileContent)
    (files : list (string * FileContent)) : list (string * FileContent) :=
  match files with
  | [] => [(fname, c)]
  | (n, c0) :: files' =>
      if String.eqb n fname then (n, c) :: files'
      else (n, c0) :: write_in fname c files'
  end.

(** A successful [cv2.imwrite] into the folder [name]; nothing is written
    when [name] is missing or is not a directory. *)
Fixpoint write_entries (name fname : string) (c : FileContent)
    (ents : list DirEnt) : list DirEnt :=
  match ents with
  | [] => []
  | ent :: ents' =>
      if String.eqb (de_name ent) name then
        (if de_isdir ent
         then mkDirEnt (de_name ent) true (write_in fname c (de_files ent))
         else ent) :: ents'
      else ent :: write_entries name fname c ents'
  end.

Definition fs_write (name fname : string) (c : FileContent) (fs : FS) : FS :=
  mkFS (write_entries name fname c (entries fs)) (metadata_json fs).

(** The files of the folder [name], as [os.listdir] would give them. *)
Definition fs_files (name : string) (fs : FS) : list (string * FileContent) :=
  match List.find (fun ent => String.eqb (de_name ent) name) (entries fs) with
  | Some ent => if de_isdir ent then de_files ent else []
  | None => []
  end.

(** What the run-time environment answers while one image is saved: the
    four readings of [datetime.now()] and the outcome of each I/O call.
    For each of the two ledger writes, [.._fails] says whether the write
    raises and [.._truncates] whether it does so after [open] has
    truncated the file. *)
Inductive ImwriteOutcome : Type :=
| Written
| NotWritten
| ImwriteRaises.

Record SaveEnv : Type := mkSaveEnv {
  stamp : string;
  iso_created : string;
  iso_seen_created : string;
  iso_seen : string;
  makedirs_fails : bool;
  meta_write_create_fails : bool;
  imwrite : ImwriteOutcome;
  meta_write_update_fails : bool;
  meta_write_create_truncates : bool;
  meta_write_update_truncates : bool
}.

(** *** [_save_metadata] *)

(** [open(metadata_file, 'w')] followed by [json.dump].  The write can
    fail in two ways: [open] itself raises and the file is left as it
    was, or [open] has truncated the file and the failure comes while
    [json.dump] writes, which leaves an empty or partial file that
    [json.load] rejects.  [truncated] tells which; it is read only when
    [fails] holds. *)
Definition _save_metadata (fails truncated : bool) : M World unit :=
  fun w =>
    if fails then
      ((if truncated
        then on_disk (fun fs => mkFS (entries fs) MetaCorrupt) w
        else w), Raise OSError)
    else (on_disk (fun fs => mkFS (entries fs)
                     (MetaPresent (person_metadata (trk w)))) w, Ok tt).

(** *** [_create_person_folder] *)
Definition _create_person_folder (person_id : string) (env : SaveEnv)
  : M World string :=
  (fun w =>
     let person_folder := PyStr.path_join (database_path (trk w)) person_id in
     (exec! (if makedirs_fails env then raise OSError
             else modify (on_disk (fs_makedirs person_id))) in
      exec! modify (on_trk (fun t =>
              set_person_metadata
                (<[person_id := mkMeta (iso_created env) 0 (iso_seen_created env)]>
                   (person_metadata t)) t)) in
      exec! _save_metadata (meta_write_create_fails env)
              (meta_write_create_truncates env) in
      ret person_folder)%py w).

(** The padded and clipped face region of [_save_person_image]. *)
Definition face_region (frame : Frame) (face_location : Location) : Image :=
  let padding := 50 in
  let '(height, width) := frame_shape frame in
  let top := Z.max 0 (loc_top face_location - padding) in
  let bottom := Z.min height (loc_bottom face_location + padding) in
  let left := Z.max 0 (loc_left face_location - padding) in
  let right := Z.min width (loc_right face_location + padding) in
  crop frame top bottom left right.

Definition image_filename (person_id : string) (env : SaveEnv) : string :=
  person_id +:+ "_" +:+ stamp env +:+ ".jpg".

Definition image_filepath (db person_id : string) (env : SaveEnv) : string :=
  PyStr.path_join (PyStr.path_join db person_id) (image_filename person_id env).

(** The ledger update at the end of [_save_person_image]. *)
Definition bump_metadata (person_id iso : string) (m : gmap string Meta)
  : gmap string Meta :=
  match m !! person_id with
  | Some r => <[person_id := mkMeta (created r) (total_images r + 1) iso]> m
  | None => m
  end.

(** *** [_save_person_image] *)
Definition _save_person_image (frame : Frame) (face_location : Location)
    (person_id : string) (env : SaveEnv) : M World string :=
  (fun w =>
     let face_image := face_region frame face_location in
     let filename := image_filename person_id env in
     let filepath := image_filepath (database_path (trk w)) person_id env in
     (exec! (if fs_exists person_id (disk w) then ret ""
             else _create_person_folder person_id env) in
      exec! (match imwrite env with
             | ImwriteRaises => raise CvError
             | NotWritten => ret tt
             | Written =>
                 modify (on_disk (fs_write person_id filename (Readable face_image)))
             end) in
      exec! (fun w1 =>
               match person_metadata (trk w1) !! person_id with
               | Some _ =>
                   (exec! modify (on_trk (fun t =>
                            set_person_metadata
                              (bump_metadata person_id (iso_seen env)
                                 (person_metadata t)) t)) in
                    _save_metadata (meta_write_update_fails env)
                      (meta_write_update_truncates env))%py w1
               | None => (w1, Ok tt)
               end) in
      exec! modify (on_trk (add_log (SavedImage filepath))) in
      ret filepath)%py w).

(** *** [_detect_faces]: the size filter over what the detector found *)
Definition big_enough (t : Tracker) (location : Location) : bool :=
  let face_width := loc_right location - loc_left location in
  let face_height := loc_bottom location - loc_top location in
  ((fst (min_face_size t) <=? face_width)%Z &&
   (snd (min_face_size t) <=? face_height)%Z)%bool.

(** What the environment answers while one detected face is processed:
    the reading of [time.time()] taken by [_register_new_person] or by
    [_should_update_person], the reading taken after an update was saved,
    and the answers to [_save_person_image]. *)
Record FaceEnv : Type := mkFaceEnv {
  now_check : Q;
  now_touch : Q;
  save_env : SaveEnv
}.

Record Detection : Type := mkDetection {
  det_location : Location;
  det_encoding : Embedding;
  det_env : FaceEnv
}.

Definition _detect_faces (t : Tracker) (found : list Detection) : list Detection :=
  filter (fun d => big_enough t (det_location d) = true) found.

(** *** The body of the per-face loop of [start_tracking] *)
Definition process_face (frame : Frame) (d : Detection) : M World string :=
  fun w =>
    let env := det_env d in
    match _identify_person (det_encoding d) (trk w) with
    | Raise e => (w, Raise e)
    | Ok None =>
        (let! person_id := (fun w0 =>
             let '(t', r) := _register_new_person (det_encoding d) (now_check env) (trk w0) in
             (mkWorld t' (disk w0), r)) in
         exec! _save_person_image frame (det_location d) person_id (save_env env) in
         ret person_id)%py w
    | Ok (Some person_id) =>
        if _should_update_person person_id (now_check env) (trk w) then
          (exec! _save_person_image frame (det_location d) person_id (save_env env) in
           exec! modify (on_trk (fun t =>
                   set_last_update_time
                     (<[person_id := now_touch env]> (last_update_time t)) t)) in
           ret person_id)%py w
        else (w, Ok person_id)
    end.

Fixpoint process_faces (frame : Frame) (ds : list Detection)
  : M World (list string) :=
  match ds with
  | [] => ret []
  | d :: ds' =>
      (let! person_id := process_face frame d in
       let! person_ids := process_faces frame ds' in
       ret (person_id :: person_ids))%py
  end.

(** *** [start_tracking] *)

(** One turn of the [while True] loop as the environment drives it. *)
Inductive CameraRead : Type :=
| ReadFailed
| Interrupted
| GotFrame (frame : Frame) (found : list Detection) (key_q : bool).

Inductive LoopEnd : Type :=
| StillLooping
| Broke
| KeyboardInterrupt
| Crashed (e : Exn).

Fixpoint tracking_loop (show_preview : bool) (reads : list CameraRead)
    (w : World) : World * LoopEnd :=
  match reads with
  | [] => (w, StillLooping)
  | ReadFailed :: _ => (on_trk (add_log FailedToReadFrame) w, Broke)
  | Interrupted :: _ => (w, KeyboardInterrupt)
  | GotFrame frame found key_q :: reads' =>
      match process_faces frame (_detect_faces (trk w) found) w with
      | (w', Raise e) => (w', Crashed e)
      | (w', Ok _) =>
          if (show_preview && key_q)%bool then (w', Broke)
          else tracking_loop show_preview reads' w'
      end
  end.

(** *** [cleanup] *)
Definition cleanup (meta_write_fails meta_write_truncates : bool)
  : M World unit :=
  (exec! modify (on_trk (add_log CleaningUp)) in
   exec! _save_metadata meta_write_fails meta_write_truncates in
   modify (on_trk (add_log CleanupCompleted)))%py.

Inductive Outcome : Type :=
| Running
| Returned
| Propagated (e : Exn).

Definition start_tracking (show_preview : bool) (reads : list CameraRead)
    (cleanup_write_fails cleanup_write_truncates : bool) (w : World)
  : World * Outcome :=
  let w0 := on_trk (add_log StartingTracking) w in
  match tracking_loop show_preview reads w0 with
  | (w1, StillLooping) => (w1, Running)
  | (w1, stop) =>
      let w2 := match stop with
                | KeyboardInterrupt => on_trk (add_log StoppedByUser) w1
                | Crashed e => on_trk (add_log (ErrorDuringTracking e)) w1
                | _ => w1
                end in
      match cleanup cleanup_write_fails cleanup_write_truncates w2 with
      | (w3, Ok _) => (w3, Returned)
      | (w3, Raise e) => (w3, Propagated e)
      end
  end.

End Model.

Arguments Tracker : clear implicits.
Arguments FileContent : clear implicits.
Arguments DirEnt : clear implicits.
Arguments FS : clear implicits.
Arguments World : clear implicits.
Arguments Detection : clear implicits.
Arguments CameraRead : clear implicits.

(** ** Observations used in the statements *)

Section Observations.

Context {Embedding Frame Image : Type}.
Variable face_encodings : Image -> list Embedding.

(** The first entry of the database directory called [name]. *)
Definition fs_lookup (name : string) (fs : FS Image) : option (DirEnt Image) :=
  List.find (fun ent => String.eqb (de_name ent) name) (entries fs).

(** [name] is free or is a directory: an image can be written there. *)
Definition fs_writable (name : string) (fs : FS Image) : Prop :=
  match fs_lookup name fs with
  | Some ent => de_isdir ent = true
  | None => True
  end.

Definition is_person_folder (ent : DirEnt Image) : bool :=
  (de_isdir ent && PyStr.startswith "Person_" (de_name ent))%bool.

(** The ids that can be read off the folder names of the catalog. *)
Definition catalog_ids (fs : FS Image) : list Z :=
  omap (fun ent => if is_person_folder ent then person_num (de_name ent) else None)
       (entries fs).

(** The embedding [_load_existing_database] takes from a folder: the first
    encoding of the first image file, when that file can be read. *)
Definition reference_of (ent : DirEnt Image) : option Embedding :=
  match filter (fun f => is_image_name (fst f) = true) (de_files ent) with
  | (_, Readable img) :: _ => head (face_encodings img)
  | _ => None
  end.

(** The folders that make it into the gallery. *)
Definition is_loaded (ent : DirEnt Image) : bool :=
  (is_person_folder ent && bool_decide (is_Some (reference_of ent)))%bool.

(** The ids of the folders that make it into the gallery. *)
Definition loaded_ids (fs : FS Image) : list Z :=
  omap (fun ent => if is_loaded ent then person_num (de_name ent) else None)
       (entries fs).

Definition max_from (start : Z) (ids : list Z) : Z := foldl Z.max start ids.

(** A sequence of [_register_new_person] calls, one per (encoding, clock
    reading), collecting the ids handed out. *)
Fixpoint register_all (faces : list (Embedding * Q)) (t : Tracker Embedding)
  : Tracker Embedding * list string :=
  match faces with
  | [] => (t, [])
  | (enc, now) :: faces' =>
      match _register_new_person enc now t with
      | (t', Ok person_id) =>
          let '(t'', ids) := register_all faces' t' in (t'', person_id :: ids)
      | (t', Raise _) => (t', [])
      end
  end.

(** The name [_register_new_person] gives to the id [n]. *)
Definition person_name (n : Z) : string := "Person_" +:+ pretty n.

(** No injected failure, and the image lands on the disk. *)
Definition save_succeeds (env : SaveEnv) : Prop :=
  makedirs_fails env = false /\ meta_write_create_fails env = false /\
  imwrite env = Written /\ meta_write_update_fails env = false.

(** Everything of the tracker except the ledger and the log. *)
Definition gallery_of (t : Tracker Embedding) :=
  (known_faces t, known_names t, person_count t, last_update_time t,
   (database_path t, update_interval t, similarity_threshold t, min_face_size t)).

(** The gallery [t'] keeps every entry of [t] at its place; it may have
    more entries at the end. *)
Definition gallery_grows (t t' : Tracker Embedding) : Prop :=
  known_faces t `prefix_of` known_faces t' /\
  known_names t `prefix_of` known_names t'.

(** The two gallery lists are parallel: one name per reference embedding. *)
Definition parallel (t : Tracker Embedding) : Prop :=
  length (known_names t) = length (known_faces t).

(** The computation [m] never changes the observation [f] of the state,
    whether it returns or raises. *)
Definition keeps {S X A : Type} (f : S -> X) (m : M S A) : Prop :=
  forall s, f (fst (m s)) = f s.

End Observations.

(** ** A concrete instance of the collaborators, for evaluation

    Embeddings are points on the rational line with the absolute
    difference as distance; a frame (and an image) is represented by the
    list of encodings the face library finds in it. *)

Module Sample.

Definition Embedding : Type := Q.
Definition Frame : Type := list Q.
Definition Image : Type := list Q.
Definition face_distance (a b : Embedding) : Q := Qabs (a - b).
Definition face_encodings (img : Image) : list Embedding := img.
Definition frame_shape (_ : Frame) : Z * Z := (480, 640).
Definition crop (f : Frame) (_ _ _ _ : Z) : Image := f.

Definition fresh : Tracker Embedding :=
  init_tracker "./database" 300 (6 # 10) (50, 50) (8 # 10).

Definition load (fs : FS Image) : Tracker Embedding * Res unit :=
  _load_existing_database face_encodings fs fresh.

Definition folder (name : string) (files : list (string * FileContent Image))
  : DirEnt Image := mkDirEnt name true files.

(** A catalog with a gap ([Person_2] is missing) and a folder whose only
    image can no longer be read. *)
Definition disk_gap_unreadable : FS Image :=
  mkFS
    [ folder "Person_1" [("Person_1_20240101_120000.jpg", Readable [1%Q])];
      folder "Person_3" [("Person_3_20240101_120500.jpg", Readable [5%Q])];
      folder "Person_4" [("Person_4_20240101_121000.jpg", Corrupt)] ]
    MetaAbsent.

Definition empty_disk : FS Image := mkFS [] MetaAbsent.

Definition quiet_save (ts : string) : SaveEnv :=
  mkSaveEnv ts "2024-01-01T12:00:00" "2024-01-01T12:00:00" "2024-01-01T12:00:00"
    false false Written false false false.

Definition loc0 : Location := mkLoc 100 300 300 100.

Definition face (enc : Embedding) (now : Q) (env : SaveEnv) : Detection Embedding :=
  mkDetection loc0 enc (mkFaceEnv now now env).

Definition step (frame : Frame) (d : Detection Embedding)
  : M (World Embedding Image) string :=
  process_face face_distance frame_shape crop frame d.

Definition save (frame : Frame) (person_id : string) (env : SaveEnv)
  : M (World Embedding Image) string :=
  _save_person_image frame_shape crop frame loc0 person_id env.

Definition run (reads : list (CameraRead Embedding Frame))
  : World Embedding Image -> World Embedding Image * Outcome :=
  start_tracking face_distance frame_shape crop true reads false false.

(** The tracker and the world right after startup on that catalog. *)
Definition loaded : Tracker Embedding := fst (load disk_gap_unreadable).

Definition restarted : World Embedding Image := mkWorld loaded disk_gap_unreadable.

(** A first start on an empty database. *)
Definition first_start : World Embedding Image := mkWorld fresh empty_disk.

(** [cv2.imwrite] raises while this image is saved. *)
Definition failing_save (ts : string) : SaveEnv :=
  mkSaveEnv ts "2024-01-01T12:00:00" "2024-01-01T12:00:00" "2024-01-01T12:00:00"
    false false ImwriteRaises false false false.



(** Two frames, one face each; the image of the first face cannot be
    written. *)
Definition reads_failure_then_face : list (CameraRead Embedding Frame) :=
  [ GotFrame [1%Q] [face 1%Q 100%Q (failing_save "20240101_120000")] false;
    GotFrame [5%Q] [face 5%Q 101%Q (quiet_save "20240101_120001")] false ].

End Sample.

(** ** Further operations of the tracker *)

(** One entry of the [persons] dictionary of [get_statistics]; a missing
    ledger record is the empty dictionary [{}] of the source. *)
Record PersonStats : Type := mkPersonStats {
  st_total_images : Z;
  st_metadata : option Meta
}.

Record Stats : Type := mkStats {
  total_persons : Z;
  st_database_path : string;
  persons : gmap string PersonStats
}.

Section Further.

Context {Embedding Frame Image : Type}.
Variable frame_shape : Frame -> Z * Z.

(** The slice bounds [(top, bottom, left, right)] computed by
    [_save_person_image] before it cuts the face out of the frame. *)
Definition padded_bounds (frame : Frame) (face_location : Location)
  : Z * Z * Z * Z :=
  let padding := 50 in
  let '(height, width) := frame_shape frame in
  (Z.max 0 (loc_top face_location - padding),
   Z.min height (loc_bottom face_location + padding),
   Z.max 0 (loc_left face_location - padding),
   Z.min width (loc_right face_location + padding)).

(** The loop of [get_statistics] over [known_names]: a name without a
    folder is skipped, a name that is a plain file makes [os.listdir]
    raise, a later occurrence of a name replaces the earlier entry. *)
Fixpoint stats_persons (t : Tracker Embedding) (fs : FS Image)
    (names : list string) (acc : gmap string PersonStats)
  : Res (gmap string PersonStats) :=
  match names with
  | [] => Ok acc
  | person_id :: names' =>
      match fs_lookup person_id fs with
      | None => stats_persons t fs names' acc
      | Some ent =>
          if de_isdir ent then
            let images := filter (fun f => is_image_name (fst f) = true)
                                 (de_files ent) in
            stats_persons t fs names'
              (<[person_id := mkPersonStats (Z.of_nat (length images))
                                (person_metadata t !! person_id)]> acc)
          else Raise OSError
      end
  end.

(** *** [get_statistics] *)
Definition get_statistics (w : World Embedding Image) : Res Stats :=
  match stats_persons (trk w) (disk w) (known_names (trk w)) ∅ with
  | Ok ps => Ok (mkStats (Z.of_nat (length (known_names (trk w))))
                   (database_path (trk w)) ps)
  | Raise e => Raise e
  end.

(** The configuration given to [__init__]. *)
Definition config_of (t : Tracker Embedding) :=
  (database_path t, update_interval t, similarity_threshold t,
   min_face_size t, detection_confidence t).

(** Every gallery name that carries a number carries one that the counter
    has reached. *)
Definition names_bounded (t : Tracker Embedding) : Prop :=
  forall name n, name ∈ known_names t -> person_num name = Some n ->
                 n <= person_count t.

(** The identity a pass through the loop body is about: the one matched,
    or else the one that will be registered. *)
Definition subject_of (face_distance : Embedding -> Embedding -> Q)
    (d : Detection Embedding) (t : Tracker Embedding) : option string :=
  match _identify_person face_distance (det_encoding d) t with
  | Ok (Some person_id) => Some person_id
  | Ok None => Some (person_name (person_count t + 1))
  | Raise _ => None
  end.

End Further.

(** ** The persistence call of the loop body *)

Section Passes.

Context {Embedding Frame Image : Type}.
Variable face_distance : Embedding -> Embedding -> Q.
Variable frame_shape : Frame -> Z * Z.
Variable crop : Frame -> Z -> Z -> Z -> Z -> Image.




(** [w'] is reached from [w] by lines written to the log and by passes
    through the loop body for faces none of which is about [person_id]:
    each was matched to another identity or registered under another
    name, or its identification raised.  These are the steps the tracking
    loop is made of, so every world in which the loop processes a face
    before it has seen [person_id] again is reached in this way. *)
Inductive seen_only_others (person_id : string) (w : World Embedding Image)
  : World Embedding Image -> Prop :=
| seen_none : seen_only_others person_id w w
| seen_log msg w1 :
    seen_only_others person_id w w1 ->
    seen_only_others person_id w (on_trk (add_log msg) w1)
| seen_other frame d w1 :
    seen_only_others person_id w w1 ->
    subject_of face_distance d (trk w1) <> Some person_id ->
    seen_only_others person_id w
      (fst (process_face face_distance frame_shape crop frame d w1)).

(** The subjects of the passes that the loop over the faces of a frame
    makes from the world [w], in order; the loop stops at a pass that
    raises. *)
Fixpoint bodies_subjects (frame : Frame) (ds : list (Detection Embedding))
    (w : World Embedding Image) : list (option string) :=
  match ds with
  | [] => []
  | d :: ds' =>
      subject_of face_distance d (trk w)
      :: match process_face face_distance frame_shape crop frame d w with
         | (w', Ok _) => bodies_subjects frame ds' w'
         | (_, Raise _) => []
         end
  end.

(** The subjects of all passes through the loop body that the tracking
    loop makes over [reads] from the world [w]. *)
Fixpoint loop_subjects (show_preview : bool)
    (reads : list (CameraRead Embedding Frame)) (w : World Embedding Image)
  : list (option string) :=
  match reads with
  | GotFrame frame found key_q :: reads' =>
      let ds := _detect_faces (trk w) found in
      bodies_subjects frame ds w
      ++ match process_faces face_distance frame_shape crop frame ds w with
         | (w', Ok _) =>
             if (show_preview && key_q)%bool then []
             else loop_subjects show_preview reads' w'
         | (_, Raise _) => []
         end
  | _ => []
  end.

End Passes.

(** ** Further concrete inputs *)

Module Scenario.

Import Sample.

(** Two stored references at the same distance from the query [1]. *)
Definition tie_tracker : Tracker Embedding :=
  mkTracker "./database" 300 2 (50, 50) (8 # 10)
    [0%Q; 2%Q] ["Person_1"; "Person_2"] 2 ∅ ∅ [].

(** A first start after which one face was seen, registered and saved. *)
Definition seen_once : World Embedding Image :=
  fst (step [1%Q] (face 1%Q 100%Q (quiet_save "20240101_120000")) first_start).

(** [cv2.imwrite] returns false. *)
Definition unwritten_save (ts : string) : SaveEnv :=
  mkSaveEnv ts "2024-01-01T12:00:00" "2024-01-01T12:00:00" "2024-01-01T12:10:00"
    false false NotWritten false false false.

(** The name of a gallery identity is taken by a plain file. *)
Definition plain_file_world : World Embedding Image :=
  mkWorld (trk seen_once) (mkFS [mkDirEnt "Person_1" false []] MetaAbsent).




(** After the restart a stranger was registered and [Person_3] was seen
    again, both at clock 1000; [Person_1] has not been seen yet. *)
Definition stranger_seen : World Embedding Image :=
  fst (step [20%Q] (face 20%Q 1000%Q (quiet_save "20240102_090000")) restarted).

Definition others_seen : World Embedding Image :=
  fst (step [5%Q] (face 5%Q 1000%Q (quiet_save "20240102_090000")) stranger_seen).

End Scenario.

(** * Properties *)

(** ** Comparisons and the minimum of the distance array *)

Lemma Qltb_lt (x y : Q) : Qltb x y = true <-> (x < y)%Q.
Proof.
  unfold Qltb. rewrite negb_true_iff. split.
  - intros H. apply Qnot_le_lt. intros Hle.
    apply Qle_bool_iff in Hle. congruence.
  - intros H. destruct (Qle_bool y x) eqn:E; [|reflexivity].
    apply Qle_bool_iff in E. exfalso. exact (Qlt_not_le _ _ H E).
Qed.

Lemma Qltb_ge (x y : Q) : Qltb x y = false <-> (y <= x)%Q.
Proof.
  unfold Qltb. rewrite negb_false_iff. apply Qle_bool_iff.
Qed.

Lemma Qgeb_ge (x y : Q) : Qgeb x y = true <-> (y <= x)%Q.
Proof. unfold Qgeb. apply Qle_bool_iff. Qed.

Lemma np_min_from_le_best (l : list Q) (best : Q) :
  (np_min_from best l <= best)%Q.
Proof.
  revert best. induction l as [|x l IH]; intros best; simpl.
  - apply Qle_refl.
  - destruct (Qltb x best) eqn:E.
    + apply Qltb_lt in E. eapply Qle_trans; [apply IH|]. now apply Qlt_le_weak.
    + apply IH.
Qed.

Lemma np_min_from_lower_bound (l : list Q) (best x : Q) :
  x ∈ l -> (np_min_from best l <= x)%Q.
Proof.
  revert best. induction l as [|y l IH]; intros best Hin.
  - inversion Hin.
  - simpl. apply elem_of_cons in Hin as [->|Hin].
    + destruct (Qltb y best) eqn:E.
      * apply np_min_from_le_best.
      * apply Qltb_ge in E. eapply Qle_trans; [apply np_min_from_le_best|exact E].
    + now apply IH.
Qed.

(** [np.argmin] points at the very value [np.min] returns. *)
Lemma np_argmin_from_lookup (l pre : list Q) (best : Q) (best_i : nat) :
  (pre ++ l) !! best_i = Some best ->
  (pre ++ l) !! np_argmin_from best_i best (length pre) l
  = Some (np_min_from best l).
Proof.
  revert pre best best_i. induction l as [|x l IH]; intros pre best best_i Hb.
  - exact Hb.
  - simpl. replace (pre ++ x :: l) with ((pre ++ [x]) ++ l) in *
      by (rewrite <- app_assoc; reflexivity).
    replace (S (length pre)) with (length (pre ++ [x]))
      by (rewrite length_app; simpl; lia).
    destruct (Qltb x best); apply IH; [|exact Hb].
    rewrite lookup_app_l by (rewrite length_app; simpl; lia).
    rewrite lookup_app_r by lia.
    replace (length pre - length pre)%nat with 0%nat by lia. reflexivity.
Qed.

Lemma np_min_argmin (l : list Q) (m : Q) :
  np_min l = Some m ->
  exists i, np_argmin l = Some i /\ l !! i = Some m.
Proof.
  destruct l as [|x l]; [discriminate|]. simpl. intros [= <-].
  eexists; split; [reflexivity|].
  apply (np_argmin_from_lookup l [x] x 0%nat). reflexivity.
Qed.

Lemma np_min_lower_bound (l : list Q) (m x : Q) :
  np_min l = Some m -> x ∈ l -> (m <= x)%Q.
Proof.
  destruct l as [|y l]; [discriminate|]. simpl. intros [= <-] Hin.
  apply elem_of_cons in Hin as [->|Hin].
  - apply np_min_from_le_best.
  - now apply np_min_from_lower_bound.
Qed.

Lemma np_min_is_Some (l : list Q) : l <> [] -> exists m, np_min l = Some m.
Proof. destruct l; [congruence|]. intros _. eexists. reflexivity. Qed.

(** ** What an operation leaves alone *)

Section Keeps.

Context {S X : Type} (f : S -> X).

Lemma keeps_ret {A} (a : A) : keeps f (ret a).
Proof. intros s. reflexivity. Qed.

Lemma keeps_raise {A} (e : Exn) : keeps f (raise (A := A) e).
Proof. intros s. reflexivity. Qed.

Lemma keeps_modify (g : S -> S) : (forall s, f (g s) = f s) -> keeps f (modify g).
Proof. intros H s. apply H. Qed.

Lemma keeps_bind {A B} (m : M S A) (k : A -> M S B) :
  keeps f m -> (forall a, keeps f (k a)) -> keeps f (bind m k).
Proof.
  intros Hm Hk s. unfold bind. specialize (Hm s).
  destruct (m s) as [s' [a|e]]; simpl in *.
  - rewrite Hk. exact Hm.
  - exact Hm.
Qed.

Lemma keeps_if {A} (b : bool) (m1 m2 : M S A) :
  keeps f m1 -> keeps f m2 -> keeps f (if b then m1 else m2).
Proof. destruct b; auto. Qed.

End Keeps.

Section Frames.

Context {Embedding Frame Image : Type}.
Variable face_distance : Embedding -> Embedding -> Q.
Variable face_encodings : Image -> list Embedding.
Variable frame_shape : Frame -> Z * Z.
Variable crop : Frame -> Z -> Z -> Z -> Z -> Image.

Local Abbreviation World := (World Embedding Image).
Local Abbreviation Tracker := (Tracker Embedding).
Local Abbreviation gal := (fun w : World => gallery_of (trk w)).

Lemma save_metadata_gallery (fails truncated : bool) :
  keeps gal (_save_metadata fails truncated).
Proof. intros w. unfold _save_metadata. destruct fails, truncated; reflexivity. Qed.

Lemma create_folder_gallery person_id env :
  keeps gal (_create_person_folder person_id env).
Proof.
  intros w. unfold _create_person_folder.
  refine (keeps_bind gal _ _ _ _ w).
  { apply keeps_if; [apply keeps_raise|now apply keeps_modify]. }
  intros _. apply keeps_bind; [now apply keeps_modify|].
  intros _. apply keeps_bind; [apply save_metadata_gallery|].
  intros _. apply keeps_ret.
Qed.

Lemma save_gallery frame loc person_id env :
  keeps gal (_save_person_image frame_shape crop frame loc person_id env).
Proof.
  intros w. unfold _save_person_image.
  refine (keeps_bind gal _ _ _ _ w).
  { apply keeps_if; [apply keeps_ret|apply create_folder_gallery]. }
  intros _. apply keeps_bind.
  { destruct (imwrite env); [now apply keeps_modify|apply keeps_ret|apply keeps_raise]. }
  intros _. apply keeps_bind.
  { intros w1. destruct (person_metadata (trk w1) !! person_id); [|reflexivity].
    refine (keeps_bind gal _ _ _ _ w1); [now apply keeps_modify|].
    intros _. apply save_metadata_gallery. }
  intros _. apply keeps_bind; [now apply keeps_modify|].
  intros _. apply keeps_ret.
Qed.

End Frames.

(** ** Resolution: matching against the gallery *)

Section Resolution.

Context {Embedding Frame Image : Type}.
Variable face_distance : Embedding -> Embedding -> Q.
Variable frame_shape : Frame -> Z * Z.
Variable crop : Frame -> Z -> Z -> Z -> Z -> Image.

Local Abbreviation World := (World Embedding Image).
Local Abbreviation Tracker := (Tracker Embedding).

Lemma identify_empty (enc : Embedding) (t : Tracker) :
  known_faces t = [] -> _identify_person face_distance enc t = Ok None.
Proof. intros H. unfold _identify_person. rewrite H. reflexivity. Qed.

(** The unmatched branch of the loop body: register, then save. *)
Lemma process_face_unmatched_eq frame (d : Detection Embedding) (w : World) :
  _identify_person face_distance (det_encoding d) (trk w) = Ok None ->
  process_face face_distance frame_shape crop frame d w
  = let name := person_name (person_count (trk w) + 1) in
    let w1 := mkWorld (fst (_register_new_person (det_encoding d)
                              (now_check (det_env d)) (trk w))) (disk w) in
    match _save_person_image frame_shape crop frame (det_location d) name
            (save_env (det_env d)) w1 with
    | (w2, Ok _) => (w2, Ok name)
    | (w2, Raise e) => (w2, Raise e)
    end.
Proof.
  intros Hid. unfold process_face. rewrite Hid. unfold bind, ret. simpl.
  unfold person_name.
  destruct (_save_person_image _ _ _ _ _ _ _) as [w2 [p|e]]; reflexivity.
Qed.

(** An unmatched face is registered, whatever happens to its image. *)
Lemma process_face_unmatched frame (d : Detection Embedding) (w : World) :
  _identify_person face_distance (det_encoding d) (trk w) = Ok None ->
  let w' := fst (process_face face_distance frame_shape crop frame d w) in
  let name := person_name (person_count (trk w) + 1) in
  known_faces (trk w') = known_faces (trk w) ++ [det_encoding d] /\
  known_names (trk w') = known_names (trk w) ++ [name] /\
  person_count (trk w') = person_count (trk w) + 1 /\
  last_update_time (trk w')
  = <[name := now_check (det_env d)]> (last_update_time (trk w)).
Proof.
  intros Hid. rewrite (process_face_unmatched_eq frame d w Hid). cbv zeta.
  set (w1 := mkWorld _ _).
  pose proof (save_gallery frame_shape crop frame (det_location d)
                (person_name (person_count (trk w) + 1))
                (save_env (det_env d)) w1) as Hs.
  destruct (_save_person_image _ _ _ _ _ _ w1) as [w2 [p|e]];
    unfold gallery_of in Hs; simpl in Hs; injection Hs as H1 H2 H3 H4;
    simpl; rewrite H1, H2, H3, H4; auto.
Qed.

(** The decision of [_identify_person] on a gallery with parallel lists. *)
Lemma identify_cases (enc : Embedding) (t : Tracker) (dmin : Q) :
  length (known_names t) = length (known_faces t) ->
  np_min (map (fun k => face_distance k enc) (known_faces t)) = Some dmin ->
  if Qltb dmin (similarity_threshold t)
  then exists i name k,
      _identify_person face_distance enc t = Ok (Some name) /\
      known_names t !! i = Some name /\ known_faces t !! i = Some k /\
      face_distance k enc = dmin
  else _identify_person face_distance enc t = Ok None.
Proof.
  intros Hlen Hmin. unfold _identify_person.
  destruct (np_min_argmin _ _ Hmin) as (i & Harg & Hi).
  rewrite Hmin, Harg.
  destruct (Qltb dmin (similarity_threshold t)); [|reflexivity].
  rewrite list_lookup_fmap in Hi.
  destruct (known_faces t !! i) as [k|] eqn:Hk; [|discriminate].
  injection Hi as Hi.
  destruct (known_names t !! i) as [name|] eqn:Hn.
  - exists i, name, k. auto.
  - apply lookup_ge_None in Hn. apply lookup_lt_Some in Hk. lia.
Qed.

(** C2: on a non-empty gallery, [_identify_person] returns an existing
    identity exactly when the minimum distance to a stored reference is
    strictly below [similarity_threshold]; the identity returned is one at
    that minimum distance.  At a distance equal to the threshold there is
    no match and the tracking loop registers a new identity. *)
Theorem identify_iff_below_threshold (enc : Embedding) (t : Tracker) :
  known_faces t <> [] ->
  length (known_names t) = length (known_faces t) ->
  exists dmin,
    np_min (map (fun k => face_distance k enc) (known_faces t)) = Some dmin /\
    (forall k, k ∈ known_faces t -> (dmin <= face_distance k enc)%Q) /\
    ((dmin < similarity_threshold t)%Q <->
     exists i name k,
       _identify_person face_distance enc t = Ok (Some name) /\
       known_names t !! i = Some name /\ known_faces t !! i = Some k /\
       face_distance k enc = dmin) /\
    ((similarity_threshold t <= dmin)%Q <->
     _identify_person face_distance enc t = Ok None) /\
    ((dmin == similarity_threshold t)%Q ->
     _identify_person face_distance enc t = Ok None /\
     forall frame (d : Detection Embedding) (w : World),
       trk w = t -> det_encoding d = enc ->
       let w' := fst (process_face face_distance frame_shape crop frame d w) in
       known_names (trk w')
       = known_names t ++ [person_name (person_count t + 1)] /\
       known_faces (trk w') = known_faces t ++ [enc]).
Proof.
  intros Hne Hlen.
  destruct (np_min_is_Some (map (fun k => face_distance k enc) (known_faces t)))
    as [dmin Hmin].
  { destruct (known_faces t); [congruence|discriminate]. }
  exists dmin. split; [exact Hmin|].
  pose proof (identify_cases enc t dmin Hlen Hmin) as Hc.
  assert (Hnone : (similarity_threshold t <= dmin)%Q ->
                  _identify_person face_distance enc t = Ok None).
  { intros Hle. apply Qltb_ge in Hle. now rewrite Hle in Hc. }
  split; [|split; [|split]].
  - intros k Hk. eapply np_min_lower_bound; [exact Hmin|].
    apply list_elem_of_fmap. exists k. auto.
  - split.
    + intros Hlt. apply Qltb_lt in Hlt. now rewrite Hlt in Hc.
    + intros (i & name & k & Hid & _).
      destruct (Qltb dmin (similarity_threshold t)) eqn:E.
      * now apply Qltb_lt.
      * congruence.
  - split; [exact Hnone|].
    intros Hid. destruct (Qltb dmin (similarity_threshold t)) eqn:E.
    + destruct Hc as (i & name & k & Hid' & _). congruence.
    + now apply Qltb_ge.
  - intros Heq.
    assert (Hid : _identify_person face_distance enc t = Ok None).
    { apply Hnone. rewrite Heq. apply Qle_refl. }
    split; [exact Hid|].
    intros frame d w <- <-.
    destruct (process_face_unmatched frame d w Hid) as (Hf & Hn & _).
    split; assumption.
Qed.

(** C8: on an empty gallery [_identify_person] returns "no match" without
    raising, and the tracking loop registers the face as a new identity
    (whether or not its first image can then be written). *)
Theorem empty_gallery_registers (frame : Frame) (d : Detection Embedding)
    (w : World) :
  known_faces (trk w) = [] ->
  _identify_person face_distance (det_encoding d) (trk w) = Ok None /\
  let w' := fst (process_face face_distance frame_shape crop frame d w) in
  known_faces (trk w') = [det_encoding d] /\
  known_names (trk w')
  = known_names (trk w) ++ [person_name (person_count (trk w) + 1)] /\
  person_count (trk w') = person_count (trk w) + 1.
Proof.
  intros Hempty.
  pose proof (identify_empty (det_encoding d) (trk w) Hempty) as Hid.
  split; [exact Hid|].
  destruct (process_face_unmatched frame d w Hid) as (Hf & Hn & Hc & _).
  rewrite Hempty in Hf. auto.
Qed.

End Resolution.

(** ** Capture throttling *)

Section Throttle.

Context {Embedding : Type}.

Local Abbreviation Tracker := (Tracker Embedding).

Lemma should_update_spec (person_id : string) (now : Q) (t : Tracker) :
  _should_update_person person_id now t = true <->
  (inject_Z (update_interval t)
   <= now - default 0%Q (last_update_time t !! person_id))%Q.
Proof. unfold _should_update_person. apply Qgeb_ge. Qed.

(** C5: for a known identity the capture decision is true exactly when
    [now - last_update_time >= update_interval]; with an interval of 300,
    299 seconds after the last update it is false and 301 seconds after it
    is true. *)
Theorem should_update_iff_interval_elapsed (person_id : string) (now last : Q)
    (t : Tracker) :
  last_update_time t !! person_id = Some last ->
  (_should_update_person person_id now t = true <->
   (inject_Z (update_interval t) <= now - last)%Q) /\
  (update_interval t = 300 ->
   _should_update_person person_id (last + 299)%Q t = false /\
   _should_update_person person_id (last + 301)%Q t = true).
Proof.
  intros Hlast. split.
  - rewrite should_update_spec, Hlast. reflexivity.
  - intros Hint. split.
    + apply not_true_is_false. rewrite should_update_spec, Hlast, Hint.
      unfold inject_Z. simpl. intros H. lra.
    + rewrite should_update_spec, Hlast, Hint. unfold inject_Z. simpl. lra.
Qed.

End Throttle.

(** ** Persisting an image and the ledger *)

Section Persistence.

Context {Embedding Frame Image : Type}.
Variable face_distance : Embedding -> Embedding -> Q.
Variable frame_shape : Frame -> Z * Z.
Variable crop : Frame -> Z -> Z -> Z -> Z -> Image.

Local Abbreviation World := (World Embedding Image).
Local Abbreviation Tracker := (Tracker Embedding).
Local Abbreviation save := (_save_person_image (Embedding := Embedding) frame_shape crop).

Ltac same_entries :=
  repeat match goal with
         | |- context [fs_lookup ?n (mkFS (entries ?X) ?m)] =>
             change (fs_lookup n (mkFS (entries X) m)) with (fs_lookup n X)
         end.

Ltac open_save :=
  unfold _save_person_image, _create_person_folder, _save_metadata,
    bind, ret, raise, modify, bump_metadata, on_trk, on_disk.

Lemma fs_exists_lookup (name : string) (fs : FS Image) :
  fs_exists name fs = bool_decide (is_Some (fs_lookup name fs)).
Proof.
  unfold fs_exists, fs_lookup. induction (entries fs) as [|ent ents IH]; simpl.
  - reflexivity.
  - destruct (String.eqb (de_name ent) name); simpl; [reflexivity|exact IH].
Qed.

Lemma find_app_None {A} (p : A -> bool) (l1 l2 : list A) :
  List.find p l1 = None -> List.find p (l1 ++ l2) = List.find p l2.
Proof.
  induction l1 as [|x l1 IH]; simpl; [reflexivity|].
  destruct (p x); [discriminate|exact IH].
Qed.

Lemma lookup_makedirs (name : string) (fs : FS Image) :
  fs_lookup name fs = None ->
  fs_lookup name (fs_makedirs name fs) = Some (mkDirEnt name true []).
Proof.
  intros Hnone. unfold fs_makedirs. rewrite fs_exists_lookup, Hnone.
  rewrite bool_decide_eq_false_2 by (intros [? ?]; discriminate).
  unfold fs_lookup in *. simpl. rewrite find_app_None by exact Hnone.
  simpl. rewrite String.eqb_refl. reflexivity.
Qed.

Lemma lookup_write (name fname : string) (c : FileContent Image) (fs : FS Image) :
  fs_lookup name (fs_write name fname c fs)
  = (fun ent => if de_isdir ent
                then mkDirEnt (de_name ent) true (write_in fname c (de_files ent))
                else ent) <$> fs_lookup name fs.
Proof.
  unfold fs_lookup, fs_write. simpl.
  induction (entries fs) as [|ent ents IH]; simpl; [reflexivity|].
  destruct (String.eqb (de_name ent) name) eqn:E; simpl.
  - destruct (de_isdir ent); simpl; rewrite E; reflexivity.
  - rewrite E. exact IH.
Qed.

Lemma write_in_elem (fname : string) (c : FileContent Image) files :
  (fname, c) ∈ write_in fname c files.
Proof.
  induction files as [|[n c0] files IH]; simpl.
  - apply list_elem_of_here.
  - destruct (String.eqb n fname) eqn:E.
    + apply String.eqb_eq in E as ->. apply list_elem_of_here.
    + apply list_elem_of_further, IH.
Qed.

(** Writing the same name twice keeps only the later content. *)
Lemma write_in_twice (fname : string) (c1 c2 : FileContent Image) files :
  write_in fname c2 (write_in fname c1 files) = write_in fname c2 files.
Proof.
  induction files as [|[n c0] files IH]; simpl.
  - rewrite String.eqb_refl. reflexivity.
  - destruct (String.eqb n fname) eqn:E; simpl; rewrite E; [reflexivity|].
    now rewrite IH.
Qed.

#[local] Opaque fs_write fs_makedirs.

(** The folder of the identity after a call of [_save_person_image] that
    returns: it is a directory, and its listing is the previous one with
    the new file written in, when [cv2.imwrite] wrote it. *)
Lemma save_folder frame loc person_id env (w w' : World) path :
  save frame loc person_id env w = (w', Ok path) ->
  fs_writable person_id (disk w) ->
  path = image_filepath (database_path (trk w)) person_id env /\
  exists ent,
    fs_lookup person_id (disk w') = Some ent /\ de_isdir ent = true /\
    de_files ent
    = match imwrite env with
      | Written => write_in (image_filename person_id env)
                     (Readable (face_region frame_shape crop frame loc))
                     (fs_files person_id (disk w))
      | _ => fs_files person_id (disk w)
      end.
Proof.
  unfold fs_writable, fs_files. fold (fs_lookup person_id (disk w)).
  open_save. rewrite fs_exists_lookup.
  destruct (fs_lookup person_id (disk w)) as [ent|] eqn:Hl.
  - rewrite bool_decide_eq_true_2 by eauto. simpl. intros Hsave Hdir.
    rewrite Hdir.
    destruct (imwrite env) eqn:Hw; simpl in Hsave;
      destruct (person_metadata (trk w) !! person_id) as [r|] eqn:Hr;
      simpl in Hsave;
      try destruct (meta_write_update_fails env); simpl in Hsave;
      try discriminate Hsave;
      injection Hsave as <- <-; simpl; (split; [reflexivity|]);
      same_entries; rewrite ?lookup_write; same_entries; rewrite Hl; simpl;
      rewrite ?Hdir;
      (eexists; split; [reflexivity|split; [assumption || reflexivity|reflexivity]]).
  - rewrite bool_decide_eq_false_2 by (intros [? ?]; discriminate).
    simpl. intros Hsave _.
    pose proof (lookup_makedirs person_id (disk w) Hl) as Hmk.
    destruct (makedirs_fails env); simpl in Hsave; [discriminate|].
    destruct (meta_write_create_fails env); simpl in Hsave; [discriminate|].
    destruct (imwrite env) eqn:Hw; simpl in Hsave;
      rewrite ?lookup_insert_eq in Hsave; simpl in Hsave;
      try destruct (meta_write_update_fails env); simpl in Hsave;
      try discriminate Hsave;
      injection Hsave as <- <-; simpl; (split; [reflexivity|]);
      same_entries; rewrite ?lookup_write; same_entries; rewrite Hmk; simpl;
      (eexists; split; [reflexivity|split; reflexivity]).
Qed.

#[local] Transparent fs_write fs_makedirs.

(** With no injected failure, [_save_person_image] returns. *)
Lemma save_returns frame loc person_id env (w : World) :
  save_succeeds env ->
  exists w', save frame loc person_id env w
             = (w', Ok (image_filepath (database_path (trk w)) person_id env)).
Proof.
  intros (Hmk & Hmc & Hw & Hmu). open_save.
  rewrite Hmk, Hmc, Hw, Hmu.
  destruct (fs_exists person_id (disk w)); simpl;
    rewrite ?lookup_insert_eq; simpl;
    try destruct (person_metadata (trk w) !! person_id); simpl;
    eexists; reflexivity.
Qed.

(** The ledger after a call of [_save_person_image] that returns: a
    missing folder gives a new record counted once; an existing record is
    counted once more; an existing folder without a record gets none. *)
Lemma save_ledger frame loc person_id env (w w' : World) path :
  save frame loc person_id env w = (w', Ok path) ->
  person_metadata (trk w') !! person_id
  = if fs_exists person_id (disk w)
    then (fun r => mkMeta (created r) (total_images r + 1) (iso_seen env))
           <$> person_metadata (trk w) !! person_id
    else Some (mkMeta (iso_created env) 1 (iso_seen env)).
Proof.
  open_save.
  destruct (fs_exists person_id (disk w)) eqn:Hex.
  - destruct (imwrite env); simpl;
      destruct (person_metadata (trk w) !! person_id) as [r|] eqn:Hr; simpl;
      try destruct (meta_write_update_fails env); simpl;
      intros [= <- <-]; simpl; rewrite ?lookup_insert_eq, ?Hr; reflexivity.
  - destruct (makedirs_fails env); simpl; [discriminate|].
    destruct (meta_write_create_fails env); simpl; [discriminate|].
    destruct (imwrite env); simpl; rewrite ?lookup_insert_eq; simpl;
      try destruct (meta_write_update_fails env); simpl;
      intros [= <- <-]; simpl; rewrite ?lookup_insert_eq; reflexivity.
Qed.

(** C7: the ledger after an image was persisted.  When the folder of the
    identity does not exist yet, a record is created and counts one image;
    when the folder exists and the ledger has a record, the record counts
    one image more and its [last_seen] is the new reading; when the folder
    exists and the ledger has no record, none is created. *)
Theorem save_ledger_cases frame loc person_id env (w w' : World) path :
  save frame loc person_id env w = (w', Ok path) ->
  (fs_exists person_id (disk w) = false ->
   person_metadata (trk w') !! person_id
   = Some (mkMeta (iso_created env) 1 (iso_seen env))) /\
  (forall r, fs_exists person_id (disk w) = true ->
             person_metadata (trk w) !! person_id = Some r ->
             person_metadata (trk w') !! person_id
             = Some (mkMeta (created r) (total_images r + 1) (iso_seen env))) /\
  (fs_exists person_id (disk w) = true ->
   person_metadata (trk w) !! person_id = None ->
   person_metadata (trk w') !! person_id = None).
Proof.
  intros Hsave. pose proof (save_ledger _ _ _ _ _ _ _ Hsave) as H.
  repeat split.
  - intros Hex. now rewrite Hex in H.
  - intros r Hex Hr. now rewrite Hex, Hr in H.
  - intros Hex Hr. now rewrite Hex, Hr in H.
Qed.

Lemma string_length_app (s t : string) :
  String.length (s +:+ t) = (String.length s + String.length t)%nat.
Proof. induction s as [|c s IH]; simpl; [reflexivity|now rewrite IH]. Qed.

Lemma string_app_inj_r (s1 s2 t : string) : s1 +:+ t = s2 +:+ t -> s1 = s2.
Proof.
  revert s2. induction s1 as [|c s1 IH]; intros [|c2 s2] H; simpl in H.
  - reflexivity.
  - apply (f_equal String.length) in H.
    rewrite !string_length_app in H. simpl in H. lia.
  - apply (f_equal String.length) in H.
    rewrite !string_length_app in H. simpl in H. lia.
  - injection H as -> H. f_equal. now apply IH.
Qed.

Lemma prefix_one (a b : ascii) (s : string) :
  String.prefix (String a "") (String b s)
  = if Ascii.ascii_dec a b then true else false.
Proof.
  cbn [String.prefix]. destruct (Ascii.ascii_dec a b); [|reflexivity].
  destruct s; reflexivity.
Qed.

Lemma filename_first_char (person_id s1 s2 : string) :
  PyStr.startswith "/" (person_id +:+ "_" +:+ s1)
  = PyStr.startswith "/" (person_id +:+ "_" +:+ s2).
Proof.
  unfold PyStr.startswith. destruct person_id as [|c p]; [reflexivity|].
  change (String c p +:+ "_" +:+ s1) with (String c (p +:+ "_" +:+ s1)).
  change (String c p +:+ "_" +:+ s2) with (String c (p +:+ "_" +:+ s2)).
  now rewrite !prefix_one.
Qed.

Lemma path_join_inj (a b1 b2 : string) :
  PyStr.startswith "/" b1 = PyStr.startswith "/" b2 ->
  PyStr.path_join a b1 = PyStr.path_join a b2 -> b1 = b2.
Proof.
  unfold PyStr.path_join. intros <-.
  destruct (PyStr.startswith "/" b1); [auto|].
  destruct (String.eqb a ""); [auto|].
  destruct (PyStr.endswith "/" a); intros H.
  - now apply String.app_inj in H.
  - apply String.app_inj in H. now apply (String.app_inj "/") in H.
Qed.

Lemma image_filepath_inj db person_id (e1 e2 : SaveEnv) :
  image_filepath db person_id e1 = image_filepath db person_id e2 <->
  stamp e1 = stamp e2.
Proof.
  unfold image_filepath, image_filename. split.
  - intros H. apply path_join_inj in H; [|apply filename_first_char].
    apply String.app_inj in H. apply (String.app_inj "_") in H.
    now apply string_app_inj_r in H.
  - now intros ->.
Qed.

(** C4: for one identity the file path is a function of the
    second-resolution timestamp alone: two persisted images get distinct
    paths exactly when their timestamps differ, and with equal timestamps
    the later image replaces the earlier one under the one path. *)
Theorem image_path_by_stamp person_id (e1 e2 : SaveEnv) :
  (forall db, image_filepath db person_id e1 = image_filepath db person_id e2
              <-> stamp e1 = stamp e2) /\
  (forall frame1 loc1 frame2 loc2 (w w1 w2 : World) p1 p2,
     save frame1 loc1 person_id e1 w = (w1, Ok p1) ->
     save frame2 loc2 person_id e2 w1 = (w2, Ok p2) ->
     imwrite e1 = Written -> imwrite e2 = Written ->
     fs_writable person_id (disk w) ->
     stamp e1 = stamp e2 ->
     p1 = p2 /\
     fs_files person_id (disk w2)
     = write_in (image_filename person_id e2)
         (Readable (face_region frame_shape crop frame2 loc2))
         (fs_files person_id (disk w))).
Proof.
  split; [intros db; apply image_filepath_inj|].
  intros frame1 loc1 frame2 loc2 w w1 w2 p1 p2 H1 H2 Hw1 Hw2 Hwr Hst.
  destruct (save_folder _ _ _ _ _ _ _ H1 Hwr) as (-> & ent1 & Hl1 & Hd1 & Hf1).
  assert (Hwr1 : fs_writable person_id (disk w1)).
  { unfold fs_writable. now rewrite Hl1. }
  destruct (save_folder _ _ _ _ _ _ _ H2 Hwr1) as (-> & ent2 & Hl2 & Hd2 & Hf2).
  pose proof (save_gallery frame_shape crop frame1 loc1 person_id e1 w) as Hg.
  rewrite H1 in Hg. unfold gallery_of in Hg. simpl in Hg.
  injection Hg as _ _ _ _ Hdb _ _ _.
  split.
  - rewrite Hdb. now apply image_filepath_inj.
  - assert (Hfiles1 : fs_files person_id (disk w1) = de_files ent1).
    { unfold fs_files. fold (fs_lookup person_id (disk w1)). now rewrite Hl1, Hd1. }
    assert (Hfiles2 : fs_files person_id (disk w2) = de_files ent2).
    { unfold fs_files. fold (fs_lookup person_id (disk w2)). now rewrite Hl2, Hd2. }
    rewrite Hfiles2, Hf2, Hw2, Hfiles1, Hf1, Hw1.
    assert (Hn : image_filename person_id e1 = image_filename person_id e2).
    { unfold image_filename. now rewrite Hst. }
    rewrite Hn. apply write_in_twice.
Qed.

(** The matched branch of the loop body when the throttle lets it pass:
    save, then restart the interval. *)
Lemma process_face_matched_eq frame (d : Detection Embedding) (w : World) person_id :
  _identify_person face_distance (det_encoding d) (trk w) = Ok (Some person_id) ->
  _should_update_person person_id (now_check (det_env d)) (trk w) = true ->
  process_face face_distance frame_shape crop frame d w
  = match save frame (det_location d) person_id (save_env (det_env d)) w with
    | (w1, Ok _) =>
        (on_trk (fun t => set_last_update_time
                   (<[person_id := now_touch (det_env d)]> (last_update_time t)) t) w1,
         Ok person_id)
    | (w1, Raise e) => (w1, Raise e)
    end.
Proof.
  intros Hid Hup. unfold process_face. rewrite Hid, Hup. unfold bind, ret, modify.
  destruct (_save_person_image _ _ _ _ _ _ _) as [w1 [p|e]]; reflexivity.
Qed.

(** C6: a face that matches nobody is registered and its image is written
    in the same pass through the loop body, without asking the throttle:
    the file is on the disk afterwards although [_should_update_person]
    would answer false for the new identity at that moment (whenever
    [update_interval] is positive). *)
Theorem new_identity_image_persisted frame (d : Detection Embedding) (w : World) :
  let name := person_name (person_count (trk w) + 1) in
  let env := save_env (det_env d) in
  _identify_person face_distance (det_encoding d) (trk w) = Ok None ->
  save_succeeds env ->
  fs_writable name (disk w) ->
  exists w',
    process_face face_distance frame_shape crop frame d w = (w', Ok name) /\
    known_names (trk w') = known_names (trk w) ++ [name] /\
    (image_filename name env,
     Readable (face_region frame_shape crop frame (det_location d)))
      ∈ fs_files name (disk w') /\
    (0 < update_interval (trk w) ->
     _should_update_person name (now_check (det_env d)) (trk w') = false).
Proof.
  cbv zeta. intros Hid Hok Hwr.
  destruct (save_returns frame (det_location d)
              (person_name (person_count (trk w) + 1)) (save_env (det_env d))
              (mkWorld (fst (_register_new_person (det_encoding d)
                               (now_check (det_env d)) (trk w))) (disk w)) Hok)
    as [w' Hsave].
  assert (Hpf : process_face face_distance frame_shape crop frame d w
                = (w', Ok (person_name (person_count (trk w) + 1)))).
  { rewrite (process_face_unmatched_eq face_distance frame_shape crop frame d w Hid).
    cbv zeta. now rewrite Hsave. }
  pose proof (process_face_unmatched face_distance frame_shape crop frame d w Hid)
    as (_ & Hnames & _ & Hlut).
  cbv zeta in Hnames, Hlut. rewrite Hpf in Hnames, Hlut. simpl in Hnames, Hlut.
  pose proof (save_gallery frame_shape crop frame (det_location d)
                (person_name (person_count (trk w) + 1)) (save_env (det_env d))
                (mkWorld (fst (_register_new_person (det_encoding d)
                                 (now_check (det_env d)) (trk w))) (disk w))) as Hg.
  rewrite Hsave in Hg. unfold gallery_of in Hg. simpl in Hg.
  injection Hg as _ _ _ _ _ Hint _ _.
  exists w'. split; [exact Hpf|]. split; [exact Hnames|].
  destruct (save_folder _ _ _ _ _ _ _ Hsave Hwr) as (_ & ent & Hl & Hd & Hf).
  destruct Hok as (_ & _ & Hw & _). rewrite Hw in Hf.
  split.
  - unfold fs_files.
    fold (fs_lookup (person_name (person_count (trk w) + 1)) (disk w')).
    rewrite Hl, Hd, Hf. apply write_in_elem.
  - intros Hpos. apply not_true_is_false. rewrite should_update_spec.
    rewrite Hlut, lookup_insert_eq. simpl. rewrite Hint. intros Hle.
    assert (H0 : (inject_Z (update_interval (trk w)) <= 0)%Q) by lra.
    change 0%Q with (inject_Z 0) in H0. rewrite <- Zle_Qle in H0. lia.
Qed.

End Persistence.

(** ** The catalog at startup and the allocation of ids *)

Section Catalog.

Context {Embedding Frame Image : Type}.
Variable face_distance : Embedding -> Embedding -> Q.
Variable face_encodings : Image -> list Embedding.
Variable frame_shape : Frame -> Z * Z.
Variable crop : Frame -> Z -> Z -> Z -> Z -> Image.

Local Abbreviation World := (World Embedding Image).
Local Abbreviation Tracker := (Tracker Embedding).
Local Abbreviation load_step := (load_entry (Embedding := Embedding) face_encodings).
Local Abbreviation load := (_load_existing_database (Embedding := Embedding) face_encodings).

(** What one folder does to the gallery. *)
Lemma load_entry_gallery (t : Tracker) (ent : DirEnt Image) :
  let t' := load_step t ent in
  match (if is_person_folder ent then reference_of face_encodings ent else None) with
  | Some enc =>
      known_faces t' = known_faces t ++ [enc] /\
      known_names t' = known_names t ++ [de_name ent] /\
      last_update_time t' = <[de_name ent := 0%Q]> (last_update_time t) /\
      person_count t' = match person_num (de_name ent) with
                        | Some n => Z.max (person_count t) n
                        | None => person_count t
                        end
  | None => gallery_of t' = gallery_of t
  end.
Proof.
  unfold load_entry, is_person_folder, reference_of.
  destruct (de_isdir ent && PyStr.startswith "Person_" (de_name ent))%bool;
    [|reflexivity].
  destruct (filter _ (de_files ent)) as [|[fname [img|]] rest]; try reflexivity.
  destruct (face_encodings img) as [|enc encs]; simpl; [reflexivity|].
  destruct (person_num (de_name ent)); simpl; auto.
Qed.

Lemma is_loaded_reference (ent : DirEnt Image) :
  is_loaded face_encodings ent = true <->
  exists enc, (if is_person_folder ent then reference_of face_encodings ent else None)
              = Some enc.
Proof.
  unfold is_loaded. destruct (is_person_folder ent); simpl.
  - rewrite bool_decide_eq_true. reflexivity.
  - split; [discriminate|]. intros [? ?]. discriminate.
Qed.

Lemma load_entry_count (t : Tracker) (ent : DirEnt Image) :
  person_count (load_step t ent)
  = match (if is_loaded face_encodings ent then person_num (de_name ent) else None) with
    | Some n => Z.max (person_count t) n
    | None => person_count t
    end.
Proof.
  pose proof (load_entry_gallery t ent) as H. cbv zeta in H.
  pose proof (is_loaded_reference ent) as Hl.
  destruct (if is_person_folder ent then reference_of face_encodings ent else None)
    as [enc|].
  - destruct H as (_ & _ & _ & ->).
    rewrite (proj2 Hl) by eauto. reflexivity.
  - destruct (is_loaded face_encodings ent).
    + destruct (proj1 Hl eq_refl). discriminate.
    + unfold gallery_of in H. now injection H.
Qed.

Lemma load_entries_count (ents : list (DirEnt Image)) (t : Tracker) :
  person_count (foldl load_step t ents)
  = max_from (person_count t)
      (omap (fun ent => if is_loaded face_encodings ent
                        then person_num (de_name ent) else None) ents).
Proof.
  revert t. induction ents as [|ent ents IH]; intros t; simpl; [reflexivity|].
  rewrite IH, load_entry_count.
  destruct (if is_loaded face_encodings ent then person_num (de_name ent) else None);
    reflexivity.
Qed.

Lemma max_from_ge_start (ids : list Z) (start : Z) : start <= max_from start ids.
Proof.
  unfold max_from. revert start.
  induction ids as [|n ids IH]; intros start; simpl; [lia|].
  specialize (IH (Z.max start n)). lia.
Qed.

Lemma max_from_ge_elem (ids : list Z) (start n : Z) :
  n ∈ ids -> n <= max_from start ids.
Proof.
  revert start. induction ids as [|m ids IH]; intros start Hin.
  - inversion Hin.
  - apply elem_of_cons in Hin as [->|Hin].
    + pose proof (max_from_ge_start ids (Z.max start m)) as H.
      unfold max_from in *. simpl. lia.
    + unfold max_from in *. simpl. now apply IH.
Qed.

Lemma load_count (fs : FS Image) (t0 t : Tracker) :
  load fs t0 = (t, Ok tt) ->
  person_count t = max_from (person_count t0) (loaded_ids face_encodings fs).
Proof.
  unfold _load_existing_database, loaded_ids.
  destruct (metadata_json fs); intros [= <-]; now rewrite load_entries_count.
Qed.

Lemma register_all_ids (faces : list (Embedding * Q)) (t : Tracker) :
  snd (register_all faces t)
  = map (fun k => person_name (person_count t + Z.of_nat k))
        (seq 1 (length faces)) /\
  person_count (fst (register_all faces t))
  = person_count t + Z.of_nat (length faces).
Proof.
  revert t. induction faces as [|[enc now] faces IH]; intros t.
  - simpl. split; [reflexivity|lia].
  - cbn [register_all _register_new_person].
    match goal with
    | |- context [register_all faces ?t1] =>
        destruct (IH t1) as [Hids Hc]; destruct (register_all faces t1) as [t2 ids]
    end.
    simpl in *. split.
    + f_equal. rewrite Hids, <- (List.seq_shift (length faces) 1), List.map_map.
      apply List.map_ext. intros k. f_equal. lia.
    + rewrite Hc. lia.
Qed.

Lemma person_name_inj (a b : Z) : person_name a = person_name b -> a = b.
Proof.
  unfold person_name. intros H. apply String.app_inj in H.
  now apply (inj pretty) in H.
Qed.

(** C1: the next id is one more than the largest id in the gallery.  At
    startup the counter is the largest id among the folders that were
    loaded into the gallery (a folder without a readable reference image
    or without a face in it is left out, and so is its id); every
    registration after that hands out the counter plus one, so the ids of
    one run are consecutive, strictly increasing, pairwise distinct and
    larger than every loaded id. *)
Theorem next_id_is_gallery_max_plus_one (fs : FS Image) (t0 t : Tracker)
    (faces : list (Embedding * Q)) :
  load fs t0 = (t, Ok tt) ->
  person_count t = max_from (person_count t0) (loaded_ids face_encodings fs) /\
  (forall n, n ∈ loaded_ids face_encodings fs -> n <= person_count t) /\
  snd (register_all faces t)
  = map (fun k => person_name (person_count t + Z.of_nat k))
        (seq 1 (length faces)) /\
  person_count (fst (register_all faces t))
  = person_count t + Z.of_nat (length faces) /\
  NoDup (snd (register_all faces t)).
Proof.
  intros Hload. pose proof (load_count fs t0 t Hload) as Hc.
  destruct (register_all_ids faces t) as [Hids Hcount].
  split; [exact Hc|]. split.
  { intros n Hn. rewrite Hc. now apply max_from_ge_elem. }
  split; [exact Hids|]. split; [exact Hcount|].
  rewrite Hids. apply NoDup_fmap_2.
  - intros a b H. apply person_name_inj in H. lia.
  - apply NoDup_ListNoDup, List.seq_NoDup.
Qed.

Lemma load_entry_zero (t : Tracker) (ent : DirEnt Image) :
  (forall pid, pid ∈ known_names t -> last_update_time t !! pid = Some 0%Q) ->
  forall pid, pid ∈ known_names (load_step t ent) ->
              last_update_time (load_step t ent) !! pid = Some 0%Q.
Proof.
  intros Hinv pid. pose proof (load_entry_gallery t ent) as H. cbv zeta in H.
  destruct (if is_person_folder ent then reference_of face_encodings ent else None).
  - destruct H as (_ & -> & -> & _). intros Hin.
    destruct (decide (de_name ent = pid)) as [->|Hne].
    + apply lookup_insert_eq.
    + rewrite lookup_insert_ne by exact Hne. apply Hinv.
      apply elem_of_app in Hin as [Hin|Hin]; [exact Hin|].
      apply list_elem_of_singleton in Hin. congruence.
  - unfold gallery_of in H. injection H as _ -> _ -> _ _ _ _. apply Hinv.
Qed.

Lemma load_entries_zero (ents : list (DirEnt Image)) (t : Tracker) :
  (forall pid, pid ∈ known_names t -> last_update_time t !! pid = Some 0%Q) ->
  forall pid, pid ∈ known_names (foldl load_step t ents) ->
              last_update_time (foldl load_step t ents) !! pid = Some 0%Q.
Proof.
  revert t. induction ents as [|ent ents IH]; intros t Hinv; simpl; [exact Hinv|].
  apply IH. now apply load_entry_zero.
Qed.

Lemma load_entry_grows (t : Tracker) (ent : DirEnt Image) :
  gallery_grows t (load_step t ent).
Proof.
  pose proof (load_entry_gallery t ent) as H. cbv zeta in H. unfold gallery_grows.
  destruct (if is_person_folder ent then reference_of face_encodings ent else None).
  - destruct H as (-> & -> & _). split; apply prefix_app_r; reflexivity.
  - unfold gallery_of in H. injection H as -> -> _ _ _ _ _ _. split; reflexivity.
Qed.

Lemma gallery_grows_refl (t : Tracker) : gallery_grows t t.
Proof. split; reflexivity. Qed.

Lemma gallery_grows_trans (t1 t2 t3 : Tracker) :
  gallery_grows t1 t2 -> gallery_grows t2 t3 -> gallery_grows t1 t3.
Proof. intros [? ?] [? ?]. split; etrans; eassumption. Qed.

Lemma gallery_grows_same (t t' : Tracker) :
  gallery_of t' = gallery_of t -> gallery_grows t t'.
Proof.
  unfold gallery_of. intros H. injection H as H1 H2 _ _ _ _ _ _.
  split; [rewrite H1|rewrite H2]; reflexivity.
Qed.

Lemma load_grows (fs : FS Image) (t : Tracker) :
  gallery_grows t (fst (load fs t)).
Proof.
  assert (Hfold : forall ents t1, gallery_grows t1 (foldl load_step t1 ents)).
  { induction ents as [|ent ents IH]; intros t1; simpl.
    - apply gallery_grows_refl.
    - eapply gallery_grows_trans; [apply load_entry_grows|apply IH]. }
  unfold _load_existing_database. destruct (metadata_json fs); simpl.
  - apply Hfold.
  - apply gallery_grows_refl.
  - apply (gallery_grows_trans _ (set_person_metadata m t)); [|apply Hfold].
    now apply gallery_grows_same.
Qed.

(** Every identity rebuilt from the disk at startup gets
    [last_update_time] 0, whatever the ledger says about when it was last
    seen. *)
Lemma load_timer_zero (fs : FS Image) (t0 t : Tracker) (person_id : string) :
  last_update_time t0 = ∅ -> known_names t0 = [] ->
  load fs t0 = (t, Ok tt) ->
  person_id ∈ known_names t ->
  last_update_time t !! person_id = Some 0%Q.
Proof.
  intros Hl Hn Hload Hin. unfold _load_existing_database in Hload.
  destruct (metadata_json fs); [|discriminate Hload|]; injection Hload as <-;
    (apply load_entries_zero; [|exact Hin]); simpl; rewrite Hn;
    intros pid Hp; inversion Hp.
Qed.

Lemma load_interval (fs : FS Image) (t0 : Tracker) :
  update_interval (fst (load fs t0)) = update_interval t0.
Proof.
  unfold _load_existing_database.
  assert (Hfold : forall ents t1,
             update_interval (foldl load_step t1 ents) = update_interval t1).
  { induction ents as [|ent ents IH]; intros t1; simpl; [reflexivity|].
    rewrite IH. unfold load_entry.
    repeat match goal with
           | |- context [match ?x with _ => _ end] => destruct x
           end; reflexivity. }
  destruct (metadata_json fs); simpl; [|reflexivity|]; now rewrite Hfold.
Qed.

(** A matched face that the throttle lets pass, with no failure injected
    and its folder name not taken by a plain file: the loop body writes the
    image into the folder and restarts the interval. *)
Lemma matched_due_writes frame (d : Detection Embedding) (w : World)
    (person_id : string) :
  _identify_person face_distance (det_encoding d) (trk w) = Ok (Some person_id) ->
  _should_update_person person_id (now_check (det_env d)) (trk w) = true ->
  save_succeeds (save_env (det_env d)) ->
  fs_writable person_id (disk w) ->
  exists w',
    process_face face_distance frame_shape crop frame d w = (w', Ok person_id) /\
    (image_filename person_id (save_env (det_env d)),
     Readable (face_region frame_shape crop frame (det_location d)))
      ∈ fs_files person_id (disk w') /\
    last_update_time (trk w') !! person_id = Some (now_touch (det_env d)).
Proof.
  intros Hid Hup Hok Hwr.
  rewrite (process_face_matched_eq face_distance frame_shape crop frame d w
             person_id Hid Hup).
  destruct (save_returns frame_shape crop frame (det_location d) person_id
              (save_env (det_env d)) w Hok) as [w1 Hsave].
  rewrite Hsave. eexists. split; [reflexivity|].
  destruct (save_folder _ _ _ _ _ _ _ _ _ Hsave Hwr) as (_ & ent & Hl & Hd & Hf).
  destruct Hok as (_ & _ & Hw & _). rewrite Hw in Hf.
  split.
  - unfold fs_files. simpl. fold (fs_lookup person_id (disk w1)).
    rewrite Hl, Hd, Hf. apply write_in_elem.
  - simpl. apply lookup_insert_eq.
Qed.

End Catalog.

(** ** The tracking loop *)

Section Loop.

Context {Embedding Frame Image : Type}.
Variable face_distance : Embedding -> Embedding -> Q.
Variable face_encodings : Image -> list Embedding.
Variable frame_shape : Frame -> Z * Z.
Variable crop : Frame -> Z -> Z -> Z -> Z -> Image.

Local Abbreviation World := (World Embedding Image).
Local Abbreviation Tracker := (Tracker Embedding).
Local Abbreviation save := (_save_person_image (Embedding := Embedding) frame_shape crop).
Local Abbreviation body := (process_face face_distance frame_shape crop).
Local Abbreviation bodies := (process_faces face_distance frame_shape crop).
Local Abbreviation loop := (tracking_loop face_distance frame_shape crop).
Local Abbreviation gal := (fun w : World => gallery_of (trk w)).

Lemma process_face_grows frame (d : Detection Embedding) (w : World) :
  gallery_grows (trk w) (trk (fst (body frame d w))).
Proof.
  destruct (_identify_person face_distance (det_encoding d) (trk w))
    as [[person_id|]|e] eqn:Hid.
  - destruct (_should_update_person person_id (now_check (det_env d)) (trk w))
      eqn:Hup.
    + rewrite (process_face_matched_eq face_distance frame_shape crop frame d w
                 person_id Hid Hup).
      pose proof (save_gallery frame_shape crop frame (det_location d) person_id
                    (save_env (det_env d)) w) as Hg.
      destruct (save frame (det_location d) person_id (save_env (det_env d)) w)
        as [w1 [p|e]]; unfold gallery_of in Hg; simpl in *;
        injection Hg as H1 H2 _ _ _ _ _ _;
        (split; simpl; [rewrite H1|rewrite H2]; reflexivity).
    + unfold process_face. rewrite Hid, Hup. apply gallery_grows_refl.
  - destruct (process_face_unmatched face_distance frame_shape crop frame d w Hid)
      as (Hf & Hn & _).
    split; [rewrite Hf|rewrite Hn]; now apply prefix_app_r.
  - unfold process_face. rewrite Hid. apply gallery_grows_refl.
Qed.

Lemma process_faces_grows frame (ds : list (Detection Embedding)) (w : World) :
  gallery_grows (trk w) (trk (fst (bodies frame ds w))).
Proof.
  revert w. induction ds as [|d ds IH]; intros w; simpl.
  - apply gallery_grows_refl.
  - unfold bind at 1. pose proof (process_face_grows frame d w) as Hd.
    destruct (body frame d w) as [w1 [p|e]]; simpl in *; [|exact Hd].
    unfold bind at 1. specialize (IH w1).
    destruct (bodies frame ds w1) as [w2 [ps|e]]; simpl in *;
      eapply gallery_grows_trans; eassumption.
Qed.

Lemma tracking_loop_grows show (reads : list (CameraRead Embedding Frame))
    (w : World) :
  gallery_grows (trk w) (trk (fst (loop show reads w))).
Proof.
  revert w. induction reads as [|r reads IH]; intros w;
    [apply gallery_grows_refl|].
  destruct r as [| |frame found key]; simpl;
    try (apply gallery_grows_same; reflexivity).
  pose proof (process_faces_grows frame (_detect_faces (trk w) found) w) as Hp.
  destruct (bodies frame (_detect_faces (trk w) found) w) as [w1 [ps|e]];
    simpl in *; [|exact Hp].
  destruct (show && key)%bool; simpl; [exact Hp|].
  eapply gallery_grows_trans; [exact Hp|apply IH].
Qed.

Lemma cleanup_gallery (fails truncated : bool) :
  keeps gal (cleanup fails truncated).
Proof.
  unfold cleanup.
  apply keeps_bind; [now apply keeps_modify|]. intros _.
  apply keeps_bind; [apply save_metadata_gallery|]. intros _.
  now apply keeps_modify.
Qed.

Lemma start_tracking_grows show (reads : list (CameraRead Embedding Frame))
    (cleanup_write_fails cleanup_write_truncates : bool) (w : World) :
  gallery_grows (trk w)
    (trk (fst (start_tracking face_distance frame_shape crop show reads
                 cleanup_write_fails cleanup_write_truncates w))).
Proof.
  unfold start_tracking.
  pose proof (tracking_loop_grows show reads (on_trk (add_log StartingTracking) w))
    as Hl.
  destruct (loop show reads (on_trk (add_log StartingTracking) w)) as [w1 stop].
  simpl in Hl.
  assert (Hc : forall w2, gal w2 = gal w1 ->
      gallery_grows (trk w)
        (trk (fst (match cleanup cleanup_write_fails cleanup_write_truncates w2 with
                   | (w3, Ok _) => (w3, Returned)
                   | (w3, Raise e) => (w3, Propagated e)
                   end)))).
  { intros w2 H2.
    pose proof (cleanup_gallery cleanup_write_fails cleanup_write_truncates w2)
      as H3.
    destruct (cleanup cleanup_write_fails cleanup_write_truncates w2)
      as [w3 [u|e]]; simpl in *;
      (eapply gallery_grows_trans; [exact Hl|]); apply gallery_grows_same;
      now rewrite H3, H2. }
  destruct stop; [exact Hl| | |]; apply Hc; reflexivity.
Qed.

(** *** The gallery lists stay parallel *)

Lemma parallel_same (t t' : Tracker) :
  known_faces t' = known_faces t -> known_names t' = known_names t ->
  parallel t -> parallel t'.
Proof. unfold parallel. now intros -> ->. Qed.

Lemma parallel_snoc (t t' : Tracker) enc name :
  known_faces t' = known_faces t ++ [enc] ->
  known_names t' = known_names t ++ [name] ->
  parallel t -> parallel t'.
Proof. unfold parallel. intros -> -> H. rewrite !length_app, H. reflexivity. Qed.

Lemma load_parallel (fs : FS Image) (t : Tracker) :
  parallel t -> parallel (fst (_load_existing_database face_encodings fs t)).
Proof.
  assert (Hstep : forall t1 ent,
             parallel t1 -> parallel (load_entry face_encodings t1 ent)).
  { intros t1 ent Hp.
    pose proof (load_entry_gallery face_encodings t1 ent) as H. cbv zeta in H.
    destruct (if is_person_folder ent then reference_of face_encodings ent else None).
    - destruct H as (Hf & Hn & _). eapply parallel_snoc; eassumption.
    - unfold gallery_of in H. injection H as Hf Hn _ _ _ _ _ _.
      eapply parallel_same; eassumption. }
  assert (Hfold : forall ents t1,
             parallel t1 -> parallel (foldl (load_entry face_encodings) t1 ents)).
  { induction ents as [|ent ents IH]; intros t1 Hp; simpl; auto. }
  intros Hp. unfold _load_existing_database.
  destruct (metadata_json fs); simpl; auto.
Qed.

Lemma process_face_parallel frame (d : Detection Embedding) (w : World) :
  parallel (trk w) -> parallel (trk (fst (body frame d w))).
Proof.
  intros Hp.
  destruct (_identify_person face_distance (det_encoding d) (trk w))
    as [[person_id|]|e] eqn:Hid.
  - destruct (_should_update_person person_id (now_check (det_env d)) (trk w))
      eqn:Hup.
    + rewrite (process_face_matched_eq face_distance frame_shape crop frame d w
                 person_id Hid Hup).
      pose proof (save_gallery frame_shape crop frame (det_location d) person_id
                    (save_env (det_env d)) w) as Hg.
      destruct (save frame (det_location d) person_id (save_env (det_env d)) w)
        as [w1 [p|e]]; unfold gallery_of in Hg; simpl in *;
        injection Hg as H1 H2 _ _ _ _ _ _;
        (eapply parallel_same; [| |exact Hp]; assumption).
    + unfold process_face. now rewrite Hid, Hup.
  - destruct (process_face_unmatched face_distance frame_shape crop frame d w Hid)
      as (Hf & Hn & _).
    eapply parallel_snoc; eassumption.
  - unfold process_face. now rewrite Hid.
Qed.

Lemma process_faces_parallel frame (ds : list (Detection Embedding)) (w : World) :
  parallel (trk w) -> parallel (trk (fst (bodies frame ds w))).
Proof.
  revert w. induction ds as [|d ds IH]; intros w Hp; simpl; [exact Hp|].
  unfold bind at 1. pose proof (process_face_parallel frame d w Hp) as Hd.
  destruct (body frame d w) as [w1 [p|e]]; simpl in *; [|exact Hd].
  unfold bind at 1. specialize (IH w1 Hd).
  destruct (bodies frame ds w1) as [w2 [ps|e]]; simpl in *; exact IH.
Qed.

Lemma tracking_loop_parallel show (reads : list (CameraRead Embedding Frame))
    (w : World) :
  parallel (trk w) -> parallel (trk (fst (loop show reads w))).
Proof.
  revert w. induction reads as [|r reads IH]; intros w Hp; [exact Hp|].
  destruct r as [| |frame found key]; simpl; try exact Hp.
  pose proof (process_faces_parallel frame (_detect_faces (trk w) found) w Hp) as H.
  destruct (bodies frame (_detect_faces (trk w) found) w) as [w1 [ps|e]];
    simpl in *; [|exact H].
  destruct (show && key)%bool; simpl; [exact H|]. now apply IH.
Qed.

(** From [__init__] on, through the load and any run of the loop, every
    tracker state has parallel gallery lists. *)
Lemma reachable_parallel (fs : FS Image) db interval threshold min_size confidence
    show (reads : list (CameraRead Embedding Frame)) (w : World) :
  trk w = fst (_load_existing_database face_encodings fs
                 (init_tracker db interval threshold min_size confidence)) ->
  parallel (trk w) /\ parallel (trk (fst (loop show reads w))).
Proof.
  intros Hw.
  assert (Hp : parallel (trk w)) by (rewrite Hw; now apply load_parallel).
  split; [exact Hp|now apply tracking_loop_parallel].
Qed.

(** C9: stored reference embeddings are only ever appended.  Image
    persistence (with its ledger update) leaves both gallery lists as they
    are; registration and catalog load add entries at the end; the loop
    body and a whole run of the tracking loop keep every entry at its
    index.  Identification and the throttle check are functions of the
    tracker that return no new state. *)
Theorem reference_embeddings_only_appended :
  (forall frame loc person_id env (w : World),
     known_faces (trk (fst (save frame loc person_id env w))) = known_faces (trk w) /\
     known_names (trk (fst (save frame loc person_id env w))) = known_names (trk w)) /\
  (forall enc now (t : Tracker),
     known_faces (fst (_register_new_person enc now t)) = known_faces t ++ [enc] /\
     known_names (fst (_register_new_person enc now t))
     = known_names t ++ [person_name (person_count t + 1)]) /\
  (forall (fs : FS Image) (t : Tracker),
     gallery_grows t (fst (_load_existing_database face_encodings fs t))) /\
  (forall frame (d : Detection Embedding) (w : World),
     gallery_grows (trk w) (trk (fst (body frame d w)))) /\
  (forall show reads cleanup_write_fails cleanup_write_truncates (w : World),
     gallery_grows (trk w)
       (trk (fst (start_tracking face_distance frame_shape crop show reads
                    cleanup_write_fails cleanup_write_truncates w)))).
Proof.
  split; [|split; [|split; [|split]]].
  - intros frame loc person_id env w.
    pose proof (save_gallery frame_shape crop frame loc person_id env w) as Hg.
    unfold gallery_of in Hg. injection Hg as H1 H2 _ _ _ _ _ _. auto.
  - intros enc now t. split; reflexivity.
  - intros fs t. apply load_grows.
  - apply process_face_grows.
  - apply start_tracking_grows.
Qed.

End Loop.

(** ** Detection filter, face region and tie-break *)

Section Detection.

Context {Embedding Frame Image : Type}.
Variable face_distance : Embedding -> Embedding -> Q.
Variable frame_shape : Frame -> Z * Z.
Variable crop : Frame -> Z -> Z -> Z -> Z -> Image.

Local Abbreviation Tracker := (Tracker Embedding).

(** X1: [_detect_faces] keeps exactly the found faces whose width and
    height both reach [min_face_size] (a face of exactly the minimum size
    is kept), in the order the detector gave them. *)
Theorem detect_faces_size_filter (t : Tracker) (found : list (Detection Embedding)) :
  _detect_faces t found `sublist_of` found /\
  forall d, d ∈ _detect_faces t found <->
            d ∈ found /\
            fst (min_face_size t)
            <= loc_right (det_location d) - loc_left (det_location d) /\
            snd (min_face_size t)
            <= loc_bottom (det_location d) - loc_top (det_location d).
Proof.
  unfold _detect_faces. split; [apply sublist_filter|].
  intros d. rewrite list_elem_of_filter. unfold big_enough.
  rewrite andb_true_iff, !Z.leb_le. tauto.
Qed.

(** X2: for a face that lies inside the frame, the region cut out by
    [_save_person_image] lies inside the frame too, contains the face, and
    extends it by at most the padding of 50 on each side. *)
Theorem padded_bounds_within_frame (frame : Frame) (loc : Location) (height width : Z) :
  frame_shape frame = (height, width) ->
  0 <= loc_top loc <= loc_bottom loc -> loc_bottom loc <= height ->
  0 <= loc_left loc <= loc_right loc -> loc_right loc <= width ->
  exists top bottom left right,
    padded_bounds frame_shape frame loc = (top, bottom, left, right) /\
    face_region frame_shape crop frame loc = crop frame top bottom left right /\
    0 <= top <= loc_top loc /\ loc_top loc - top <= 50 /\
    loc_bottom loc <= bottom <= height /\ bottom - loc_bottom loc <= 50 /\
    0 <= left <= loc_left loc /\ loc_left loc - left <= 50 /\
    loc_right loc <= right <= width /\ right - loc_right loc <= 50.
Proof.
  intros Hshape Hv Hb Hh Hr. unfold padded_bounds, face_region. rewrite Hshape.
  eexists _, _, _, _. split; [reflexivity|]. split; [reflexivity|]. lia.
Qed.

(** [np.argmin] returns the first index of the minimum: every earlier
    entry is strictly larger. *)
Lemma np_argmin_from_first (l pre : list Q) (best : Q) (best_i : nat) :
  (pre ++ l) !! best_i = Some best ->
  (best_i < length pre)%nat ->
  (forall j v, (j < length pre)%nat -> (pre ++ l) !! j = Some v -> (best <= v)%Q) ->
  (forall j v, (j < best_i)%nat -> (pre ++ l) !! j = Some v -> (best < v)%Q) ->
  forall j v, (j < np_argmin_from best_i best (length pre) l)%nat ->
              (pre ++ l) !! j = Some v -> (np_min_from best l < v)%Q.
Proof.
  revert pre best best_i. induction l as [|x l IH];
    intros pre best best_i Hb Hlt Hall Hbefore.
  - simpl. exact Hbefore.
  - simpl. replace (pre ++ x :: l) with ((pre ++ [x]) ++ l) in *
      by (rewrite <- app_assoc; reflexivity).
    replace (S (length pre)) with (length (pre ++ [x]))
      by (rewrite length_app; simpl; lia).
    assert (Hx : ((pre ++ [x]) ++ l) !! length pre = Some x).
    { rewrite lookup_app_l by (rewrite length_app; simpl; lia).
      rewrite lookup_app_r by lia.
      replace (length pre - length pre)%nat with 0%nat by lia. reflexivity. }
    destruct (Qltb x best) eqn:E.
    + apply Qltb_lt in E. apply IH.
      * exact Hx.
      * rewrite length_app. simpl. lia.
      * intros j v Hj Hv. rewrite length_app in Hj. simpl in Hj.
        destruct (decide (j = length pre)) as [->|Hne].
        -- rewrite Hx in Hv. injection Hv as <-. apply Qle_refl.
        -- apply Qlt_le_weak. eapply Qlt_le_trans; [exact E|].
           apply (Hall j v); [lia|exact Hv].
      * intros j v Hj Hv. eapply Qlt_le_trans; [exact E|].
        apply (Hall j v); [lia|exact Hv].
    + apply Qltb_ge in E. apply IH.
      * exact Hb.
      * rewrite length_app. simpl. lia.
      * intros j v Hj Hv. rewrite length_app in Hj. simpl in Hj.
        destruct (decide (j = length pre)) as [->|Hne].
        -- rewrite Hx in Hv. injection Hv as <-. exact E.
        -- apply (Hall j v); [lia|exact Hv].
      * exact Hbefore.
Qed.

Lemma np_argmin_first (l : list Q) (m : Q) (i : nat) :
  np_min l = Some m -> np_argmin l = Some i ->
  forall j v, (j < i)%nat -> l !! j = Some v -> (m < v)%Q.
Proof.
  destruct l as [|x l]; [discriminate|]. simpl. intros [= <-] [= <-].
  apply (np_argmin_from_first l [x] x 0%nat).
  - reflexivity.
  - simpl. lia.
  - intros j v Hj Hv. simpl in Hj. assert (j = 0%nat) as -> by lia.
    injection Hv as <-. apply Qle_refl.
  - intros j v Hj. lia.
Qed.

(** X3: when several stored references are equally near, the first one in
    gallery order is returned: every gallery entry before the matched one
    is strictly farther from the query, and none is nearer. *)
Theorem identify_returns_first_nearest (enc : Embedding) (t : Tracker) (name : string) :
  parallel t ->
  _identify_person face_distance enc t = Ok (Some name) ->
  exists i k,
    known_names t !! i = Some name /\ known_faces t !! i = Some k /\
    (face_distance k enc < similarity_threshold t)%Q /\
    (forall k', k' ∈ known_faces t -> (face_distance k enc <= face_distance k' enc)%Q) /\
    (forall j k', (j < i)%nat -> known_faces t !! j = Some k' ->
                  (face_distance k enc < face_distance k' enc)%Q).
Proof.
  intros Hpar Hid. unfold _identify_person in Hid.
  destruct (np_min _) as [m|] eqn:Hmin; [|discriminate].
  destruct (np_argmin _) as [i|] eqn:Harg; [|discriminate].
  destruct (Qltb m (similarity_threshold t)) eqn:Hlt; [|discriminate].
  destruct (known_names t !! i) as [name'|] eqn:Hn; [|discriminate].
  injection Hid as ->.
  destruct (np_min_argmin _ _ Hmin) as (i' & Harg' & Hi).
  rewrite Harg in Harg'. injection Harg' as <-.
  rewrite list_lookup_fmap in Hi.
  destruct (known_faces t !! i) as [k|] eqn:Hk; [|discriminate].
  injection Hi as Hi. exists i, k.
  split; [exact Hn|]. split; [exact Hk|]. rewrite Hi.
  split; [now apply Qltb_lt|]. split.
  - intros k' Hk'. eapply np_min_lower_bound; [exact Hmin|].
    apply list_elem_of_fmap. exists k'. auto.
  - intros j k' Hj Hk'. eapply np_argmin_first; [exact Hmin|exact Harg|exact Hj|].
    rewrite list_lookup_fmap, Hk'. reflexivity.
Qed.

End Detection.

(** ** Names and ids: what is written is what is read back *)

Lemma chars_app (a b : string) :
  PyStr.chars (a +:+ b) = PyStr.chars a ++ PyStr.chars b.
Proof.
  unfold PyStr.chars. induction a as [|c a IH]; [reflexivity|].
  change (String c a +:+ b) with (String c (a +:+ b)).
  simpl. now rewrite IH.
Qed.

Lemma of_chars_chars (s : string) : PyStr.of_chars (PyStr.chars s) = s.
Proof. apply string_of_list_ascii_of_string. Qed.

Lemma chars_of_chars (l : list ascii) : PyStr.chars (PyStr.of_chars l) = l.
Proof. apply list_ascii_of_string_of_list_ascii. Qed.

Lemma digit_val_props (c : ascii) (d : Z) :
  PyStr.digit_val c = Some d ->
  PyStr.is_space c = false /\ c <> "_"%char /\ c <> "-"%char /\ c <> "+"%char.
Proof.
  destruct c as [[] [] [] [] [] [] [] []]; intros H; vm_compute in H;
    try discriminate H; repeat split; try reflexivity; discriminate.
Qed.

Lemma digit_val_pretty_char (y : N) :
  (y < 10)%N -> PyStr.digit_val (pretty_N_char y) = Some (Z.of_N y).
Proof.
  intros Hy.
  assert (y = 0 \/ y = 1 \/ y = 2 \/ y = 3 \/ y = 4 \/ y = 5 \/ y = 6 \/
          y = 7 \/ y = 8 \/ y = 9)%N as H by lia.
  repeat (destruct H as [->|H]; [reflexivity|]). subst. reflexivity.
Qed.

(** The decimal digits [pretty] writes, read back by [int()]'s digit loop. *)
Lemma pretty_N_go_digits (x : N) (s : string) :
  exists ds,
    PyStr.chars (pretty_N_go x s) = ds ++ PyStr.chars s /\
    Forall (fun c => is_Some (PyStr.digit_val c)) ds /\
    ((0 < x)%N -> ds <> []) /\
    forall acc rest,
      PyStr.digits_from acc (ds ++ rest)
      = PyStr.digits_from (acc * 10 ^ Z.of_nat (length ds) + Z.of_N x) rest.
Proof.
  revert s. induction (N.lt_wf_0 x) as [x _ IH]; intros s.
  assert (x = 0 \/ 0 < x)%N as [->|Hpos] by lia.
  - exists []. rewrite pretty_N_go_0.
    split; [reflexivity|]. split; [constructor|]. split; [lia|].
    intros acc rest. simpl. f_equal. lia.
  - rewrite pretty_N_go_step by exact Hpos.
    destruct (IH (x `div` 10)%N (N.div_lt x 10 Hpos eq_refl)
                (String (pretty_N_char (x `mod` 10)) s))
      as (ds & Hch & Hdig & _ & Hparse).
    pose proof (digit_val_pretty_char (x `mod` 10)%N
                  (N.mod_lt x 10 ltac:(discriminate))) as Hc.
    exists (ds ++ [pretty_N_char (x `mod` 10)]). split; [|split; [|split]].
    + rewrite Hch, <- app_assoc. reflexivity.
    + apply Forall_app. split; [exact Hdig|]. apply Forall_singleton. eauto.
    + intros _ H. apply app_eq_nil in H as [_ H]. discriminate.
    + intros acc rest. rewrite <- app_assoc. simpl. rewrite Hparse. simpl.
      rewrite Hc. f_equal. rewrite length_app. simpl.
      rewrite Nat2Z.inj_add, Z.pow_add_r by lia.
      rewrite N2Z.inj_div, N2Z.inj_mod.
      pose proof (Z.div_mod (Z.of_N x) 10 ltac:(lia)). simpl Z.of_nat.
      change (10 ^ 1) with 10. lia.
Qed.

Lemma lstrip_no_space (l : list ascii) :
  Forall (fun c => PyStr.is_space c = false) l -> PyStr.lstrip l = l.
Proof. intros [|c l' Hc _]; [reflexivity|]. simpl. now rewrite Hc. Qed.

Lemma strip_no_space (l : list ascii) :
  Forall (fun c => PyStr.is_space c = false) l -> PyStr.strip l = l.
Proof.
  intros H. unfold PyStr.strip. rewrite (lstrip_no_space l H).
  rewrite lstrip_no_space by (apply Forall_rev; exact H). apply rev_involutive.
Qed.

Lemma split_chars_no_sep (sep : ascii) (l cur : list ascii) :
  Forall (fun c => c <> sep) l ->
  PyStr.split_chars sep cur l = [rev cur ++ l].
Proof.
  revert cur. induction l as [|c l IH]; intros cur H; simpl.
  - now rewrite app_nil_r.
  - apply Forall_cons in H as [Hc Hl].
    rewrite (proj2 (Ascii.eqb_neq c sep) Hc), (IH _ Hl). simpl.
    now rewrite <- app_assoc.
Qed.

Lemma int_unsigned (s : string) (c : ascii) (rest : list ascii) :
  PyStr.strip (PyStr.chars s) = c :: rest ->
  c <> "-"%char -> c <> "+"%char ->
  PyStr.int s = PyStr.unsigned (c :: rest).
Proof.
  intros Hs Hm Hp. unfold PyStr.int. rewrite Hs.
  destruct c as [[] [] [] [] [] [] [] []]; try reflexivity; congruence.
Qed.

(** The text of a number: an optional minus and a non-empty run of digits
    that reads back as the absolute value. *)
Lemma pretty_positive_digits (p : positive) :
  exists c ds,
    PyStr.chars (pretty (N.pos p)) = c :: ds /\
    Forall (fun c => is_Some (PyStr.digit_val c)) (c :: ds) /\
    PyStr.digits_from 0 (c :: ds) = Some (Z.pos p).
Proof.
  unfold pretty, pretty_N. destruct (decide (N.pos p = 0%N)); [discriminate|].
  destruct (pretty_N_go_digits (N.pos p) "") as (ds & Hch & Hdig & Hne & Hparse).
  rewrite app_nil_r in Hch. destruct ds as [|c ds]; [now destruct Hne|].
  exists c, ds. split; [exact Hch|]. split; [exact Hdig|].
  specialize (Hparse 0 []). rewrite app_nil_r in Hparse. rewrite Hparse.
  simpl. reflexivity.
Qed.

Lemma digits_no_space (l : list ascii) :
  Forall (fun c => is_Some (PyStr.digit_val c)) l ->
  Forall (fun c => PyStr.is_space c = false) l /\
  Forall (fun c => c <> "_"%char) l.
Proof.
  intros H. split; eapply Forall_impl; try exact H;
    intros c [d Hd]; now destruct (digit_val_props c d Hd) as (? & ? & ? & ?).
Qed.

Lemma int_pretty (n : Z) : PyStr.int (pretty n) = Some n.
Proof.
  destruct n as [|p|p]; [reflexivity| |].
  - change (pretty (Z.pos p)) with (pretty (N.pos p)).
    destruct (pretty_positive_digits p) as (c & ds & Hch & Hdig & Hparse).
    destruct (digits_no_space _ Hdig) as [Hsp _].
    apply Forall_cons in Hdig as [[d Hd] _].
    destruct (digit_val_props c d Hd) as (_ & _ & Hm & Hp).
    rewrite (int_unsigned _ c ds); [exact Hparse| |exact Hm|exact Hp].
    rewrite Hch. now apply strip_no_space.
  - change (pretty (Z.neg p)) with ("-" +:+ pretty (N.pos p)).
    destruct (pretty_positive_digits p) as (c & ds & Hch & Hdig & Hparse).
    destruct (digits_no_space _ Hdig) as [Hsp _].
    unfold PyStr.int. rewrite chars_app, Hch.
    rewrite strip_no_space by (apply Forall_cons; split; [reflexivity|exact Hsp]).
    simpl. simpl in Hparse. rewrite Hparse. reflexivity.
Qed.

Lemma pretty_no_underscore (n : Z) :
  Forall (fun c => c <> "_"%char) (PyStr.chars (pretty n)).
Proof.
  destruct n as [|p|p].
  - repeat constructor; discriminate.
  - change (pretty (Z.pos p)) with (pretty (N.pos p)).
    destruct (pretty_positive_digits p) as (c & ds & Hch & Hdig & _).
    rewrite Hch. now apply digits_no_space.
  - change (pretty (Z.neg p)) with ("-" +:+ pretty (N.pos p)).
    destruct (pretty_positive_digits p) as (c & ds & Hch & Hdig & _).
    rewrite chars_app, Hch. apply Forall_cons. split; [discriminate|].
    now apply digits_no_space.
Qed.

Lemma split_person_name (n : Z) :
  PyStr.split "_"%char (person_name n) !! 1%nat = Some (pretty n).
Proof.
  unfold person_name, PyStr.split. rewrite chars_app. simpl.
  rewrite split_chars_no_sep by apply pretty_no_underscore.
  simpl. now rewrite of_chars_chars.
Qed.

(** X4: the id that [_load_existing_database] reads off a folder name
    ([int(name.split('_')[1])]) is the id [_register_new_person] wrote into
    it ([f"Person_{n}"]), for every integer. *)
Theorem person_num_of_person_name (n : Z) :
  person_num (person_name n) = Some n.
Proof.
  unfold person_num. rewrite split_person_name. apply int_pretty.
Qed.

Lemma prefix_chars_app (p rest : list ascii) :
  PyStr.prefix_chars p (p ++ rest) = true.
Proof.
  induction p as [|c p IH]; [reflexivity|]. simpl.
  now rewrite Ascii.eqb_refl.
Qed.

Lemma jpg_name_is_image (person_id ts : string) :
  is_image_name (person_id +:+ "_" +:+ ts +:+ ".jpg") = true.
Proof.
  unfold is_image_name, PyStr.endswith, PyStr.lower.
  rewrite chars_of_chars, !chars_app, !app_assoc, map_app, rev_app_distr.
  change (rev (map PyStr.lower_char (PyStr.chars ".jpg")))
    with (rev (PyStr.chars ".jpg")).
  now rewrite prefix_chars_app.
Qed.

(** X5: every file name [_save_person_image] writes passes the image
    filter of [_load_existing_database] and [get_statistics] (it ends in
    [.jpg]), so a written image is seen again at the next start. *)
Theorem saved_image_is_recognised (person_id : string) (env : SaveEnv) :
  is_image_name (image_filename person_id env) = true.
Proof. unfold image_filename. apply jpg_name_is_image. Qed.

(** ** One pass through the loop body, and whole runs *)

Section Runs.

Context {Embedding Frame Image : Type}.
Variable face_distance : Embedding -> Embedding -> Q.
Variable face_encodings : Image -> list Embedding.
Variable frame_shape : Frame -> Z * Z.
Variable crop : Frame -> Z -> Z -> Z -> Z -> Image.

Local Abbreviation World := (World Embedding Image).
Local Abbreviation Tracker := (Tracker Embedding).
Local Abbreviation save := (_save_person_image (Embedding := Embedding) frame_shape crop).
Local Abbreviation body := (process_face face_distance frame_shape crop).
Local Abbreviation bodies := (process_faces face_distance frame_shape crop).
Local Abbreviation loop := (tracking_loop face_distance frame_shape crop).
Local Abbreviation track := (start_tracking face_distance frame_shape crop).

(** [_save_person_image] changes nothing of the tracker but the ledger and
    the log. *)
Lemma save_keeps {X : Type} (f : Tracker -> X) frame loc person_id env :
  (forall t m, f (set_person_metadata m t) = f t) ->
  (forall t msg, f (add_log msg t) = f t) ->
  keeps (fun w : World => f (trk w)) (save frame loc person_id env).
Proof.
  intros Hm Hl.
  assert (Hmeta : forall fails truncated,
             keeps (fun w : World => f (trk w)) (_save_metadata fails truncated)).
  { intros fails truncated w. unfold _save_metadata.
    destruct fails, truncated; reflexivity. }
  intros w. unfold _save_person_image.
  refine (keeps_bind (fun w : World => f (trk w)) _ _ _ _ w).
  { apply keeps_if; [apply keeps_ret|]. intros w0. unfold _create_person_folder.
    refine (keeps_bind (fun w : World => f (trk w)) _ _ _ _ w0).
    { apply keeps_if; [apply keeps_raise|now apply keeps_modify]. }
    intros _. apply keeps_bind; [apply keeps_modify; intros; apply Hm|].
    intros _. apply keeps_bind; [apply Hmeta|]. intros _. apply keeps_ret. }
  intros _. apply keeps_bind.
  { destruct (imwrite env); [now apply keeps_modify|apply keeps_ret|apply keeps_raise]. }
  intros _. apply keeps_bind.
  { intros w1. destruct (person_metadata (trk w1) !! person_id); [|reflexivity].
    refine (keeps_bind (fun w : World => f (trk w)) _ _ _ _ w1);
      [apply keeps_modify; intros; apply Hm|].
    intros _. apply Hmeta. }
  intros _. apply keeps_bind; [apply keeps_modify; intros; apply Hl|].
  intros _. apply keeps_ret.
Qed.

(** What one pass through the loop body does to the tracker: nothing but
    the ledger and the log; or the timer of the matched identity is
    restarted; or one identity is appended. *)
Lemma process_face_tracker frame (d : Detection Embedding) (w : World) :
  let t := trk w in
  let t' := trk (fst (body frame d w)) in
  config_of t' = config_of t /\
  ((known_faces t' = known_faces t /\ known_names t' = known_names t /\
    person_count t' = person_count t /\
    (last_update_time t' = last_update_time t \/
     exists person_id,
       _identify_person face_distance (det_encoding d) t = Ok (Some person_id) /\
       last_update_time t'
       = <[person_id := now_touch (det_env d)]> (last_update_time t))) \/
   (_identify_person face_distance (det_encoding d) t = Ok None /\
    known_faces t' = known_faces t ++ [det_encoding d] /\
    known_names t' = known_names t ++ [person_name (person_count t + 1)] /\
    person_count t' = person_count t + 1 /\
    last_update_time t'
    = <[person_name (person_count t + 1) := now_check (det_env d)]>
        (last_update_time t))).
Proof.
  cbv zeta.
  destruct (_identify_person face_distance (det_encoding d) (trk w))
    as [[person_id|]|e] eqn:Hid.
  - destruct (_should_update_person person_id (now_check (det_env d)) (trk w))
      eqn:Hup.
    + rewrite (process_face_matched_eq face_distance frame_shape crop frame d w
                 person_id Hid Hup).
      pose proof (save_gallery frame_shape crop frame (det_location d) person_id
                    (save_env (det_env d)) w) as Hg.
      pose proof (save_keeps config_of frame (det_location d) person_id
                    (save_env (det_env d)) ltac:(reflexivity) ltac:(reflexivity) w)
        as Hc.
      destruct (save frame (det_location d) person_id (save_env (det_env d)) w)
        as [w1 [p|e]]; unfold gallery_of in Hg; simpl in *;
        injection Hg as H1 H2 H3 H4 _ _ _ _.
      * split; [exact Hc|]. left. repeat split; try assumption.
        right. exists person_id. split; [reflexivity|]. now rewrite H4.
      * split; [exact Hc|]. left. repeat split; try assumption. now left.
    + unfold process_face. rewrite Hid, Hup. simpl.
      split; [reflexivity|]. left. repeat split. now left.
  - destruct (process_face_unmatched face_distance frame_shape crop frame d w Hid)
      as (Hf & Hn & Hc & Hl).
    split.
    + rewrite (process_face_unmatched_eq face_distance frame_shape crop frame d w Hid).
      cbv zeta.
      match goal with
      | |- context [_save_person_image _ _ ?fr ?lo ?pid ?env ?w1] =>
          pose proof (save_keeps config_of fr lo pid env
                        ltac:(reflexivity) ltac:(reflexivity) w1) as Hcfg;
          destruct (_save_person_image frame_shape crop fr lo pid env w1)
            as [w2 [p|e]]; simpl in *; exact Hcfg
      end.
    + right. repeat split; assumption.
  - unfold process_face. rewrite Hid. simpl.
    split; [reflexivity|]. left. repeat split. now left.
Qed.

(** A relation on trackers that every pass through the loop body respects
    and that does not look at the log holds across the loop and across
    [start_tracking] with its cleanup. *)
Lemma start_tracking_lift (R : Tracker -> Tracker -> Prop) :
  (forall t, R t t) ->
  (forall a b c, R a b -> R b c -> R a c) ->
  (forall t msg, R t (add_log msg t)) ->
  (forall frame d (w : World), R (trk w) (trk (fst (body frame d w)))) ->
  forall show reads cleanup_write_fails cleanup_write_truncates (w : World),
    R (trk w) (trk (fst (loop show reads w))) /\
    R (trk w)
      (trk (fst (track show reads cleanup_write_fails cleanup_write_truncates w))).
Proof.
  intros Hrefl Htrans Hlog Hbody.
  assert (Hbodies : forall frame ds (w : World),
             R (trk w) (trk (fst (bodies frame ds w)))).
  { intros frame ds. induction ds as [|d ds IH]; intros w; simpl; [apply Hrefl|].
    unfold bind at 1. pose proof (Hbody frame d w) as Hd.
    destruct (body frame d w) as [w1 [p|e]]; simpl in *; [|exact Hd].
    unfold bind at 1. specialize (IH w1).
    destruct (bodies frame ds w1) as [w2 [ps|e]]; simpl in *;
      eapply Htrans; eassumption. }
  assert (Hloop : forall show reads (w : World),
             R (trk w) (trk (fst (loop show reads w)))).
  { intros show reads. induction reads as [|r reads IH]; intros w; [apply Hrefl|].
    destruct r as [| |frame found key]; simpl; [apply Hlog|apply Hrefl|].
    pose proof (Hbodies frame (_detect_faces (trk w) found) w) as Hp.
    destruct (bodies frame (_detect_faces (trk w) found) w) as [w1 [ps|e]];
      simpl in *; [|exact Hp].
    destruct (show && key)%bool; simpl; [exact Hp|].
    eapply Htrans; [exact Hp|apply IH]. }
  intros show reads cf ct w. split; [apply Hloop|].
  unfold start_tracking.
  pose proof (Hloop show reads (on_trk (add_log StartingTracking) w)) as Hl.
  assert (Hstart : R (trk w) (trk (on_trk (add_log StartingTracking) w)))
    by apply Hlog.
  destruct (loop show reads (on_trk (add_log StartingTracking) w)) as [w1 stop].
  simpl in Hl.
  assert (H1 : R (trk w) (trk w1)) by (eapply Htrans; eassumption).
  assert (Hclean : forall w2 : World, R (trk w) (trk w2) ->
      R (trk w) (trk (fst (match cleanup cf ct w2 with
                           | (w3, Ok _) => (w3, Returned)
                           | (w3, Raise e) => (w3, Propagated e)
                           end)))).
  { intros w2 H2. unfold cleanup, bind, modify, _save_metadata.
    destruct cf; [destruct ct|]; simpl.
    - eapply Htrans; [exact H2|apply Hlog].
    - eapply Htrans; [exact H2|apply Hlog].
    - eapply Htrans; [exact H2|]. eapply Htrans; apply Hlog. }
  destruct stop; [exact H1|apply Hclean; exact H1| |];
    apply Hclean; (eapply Htrans; [exact H1|apply Hlog]).
Qed.

(** X6: a face that matches an identity whose last capture is less than
    [update_interval] old changes nothing at all (no file, no ledger
    write, no timer, no log line); the loop body just returns the id. *)
Theorem throttled_match_changes_nothing frame (d : Detection Embedding)
    (w : World) (person_id : string) (last : Q) :
  _identify_person face_distance (det_encoding d) (trk w) = Ok (Some person_id) ->
  last_update_time (trk w) !! person_id = Some last ->
  (now_check (det_env d) - last < inject_Z (update_interval (trk w)))%Q ->
  body frame d w = (w, Ok person_id).
Proof.
  intros Hid Hlast Hlt.
  assert (Hup : _should_update_person person_id (now_check (det_env d)) (trk w)
                = false).
  { apply not_true_is_false. rewrite should_update_spec, Hlast. simpl.
    intros H. apply (Qlt_not_le _ _ Hlt). exact H. }
  unfold process_face. now rewrite Hid, Hup.
Qed.

(** X7: a pass through the loop body changes the capture timer of no
    identity other than the one it is about (the matched one, or the one
    being registered). *)
Theorem process_face_touches_one_timer frame (d : Detection Embedding)
    (w : World) (other : string) :
  subject_of face_distance d (trk w) <> Some other ->
  last_update_time (trk (fst (body frame d w))) !! other
  = last_update_time (trk w) !! other.
Proof.
  unfold subject_of. intros Hsub.
  destruct (process_face_tracker frame d w) as (_ & [(_ & _ & _ & Hl)|Hnew]).
  - destruct Hl as [->|(person_id & Hid & ->)]; [reflexivity|].
    rewrite Hid in Hsub. apply lookup_insert_ne. congruence.
  - destruct Hnew as (Hid & _ & _ & _ & ->). rewrite Hid in Hsub.
    apply lookup_insert_ne. congruence.
Qed.

(** X8: across any run of [start_tracking] the counter grows by exactly the
    number of identities added to the gallery, and neither ever shrinks:
    every id handed out belongs to one new gallery entry. *)
Theorem ids_handed_out_match_gallery_growth show reads cleanup_write_fails
    cleanup_write_truncates (w : World) :
  let t := trk w in
  let t' := trk (fst (track show reads cleanup_write_fails
                        cleanup_write_truncates w)) in
  person_count t' - person_count t
  = Z.of_nat (length (known_names t')) - Z.of_nat (length (known_names t)) /\
  person_count t <= person_count t' /\
  (length (known_names t) <= length (known_names t'))%nat.
Proof.
  cbv zeta.
  apply (start_tracking_lift
           (fun t t' =>
              person_count t' - person_count t
              = Z.of_nat (length (known_names t'))
                - Z.of_nat (length (known_names t)) /\
              person_count t <= person_count t' /\
              (length (known_names t) <= length (known_names t'))%nat)).
  - intros t. lia.
  - intros a b c. lia.
  - intros t msg. simpl. lia.
  - intros frame d w0.
    destruct (process_face_tracker frame d w0) as (_ & [(_ & Hn & Hc & _)|Hnew]).
    + rewrite Hn, Hc. lia.
    + destruct Hnew as (_ & _ & Hn & Hc & _). rewrite Hn, Hc, length_app.
      simpl. lia.
Qed.

(** X9: no run of [start_tracking] changes the configuration the tracker
    was constructed with (database path, update interval, similarity
    threshold, minimum face size, detection confidence). *)
Theorem configuration_never_changes show reads cleanup_write_fails
    cleanup_write_truncates (w : World) :
  config_of (trk (fst (track show reads cleanup_write_fails
                         cleanup_write_truncates w)))
  = config_of (trk w).
Proof.
  apply (start_tracking_lift (fun t t' => config_of t' = config_of t)).
  - reflexivity.
  - intros a b c H1 H2. now rewrite H2.
  - reflexivity.
  - intros frame d w0. apply (process_face_tracker frame d w0).
Qed.

End Runs.

(** ** Startup: what the load makes of the catalog *)

Section Startup.

Context {Embedding Frame Image : Type}.
Variable face_distance : Embedding -> Embedding -> Q.
Variable face_encodings : Image -> list Embedding.
Variable frame_shape : Frame -> Z * Z.
Variable crop : Frame -> Z -> Z -> Z -> Z -> Image.

Local Abbreviation World := (World Embedding Image).
Local Abbreviation Tracker := (Tracker Embedding).
Local Abbreviation load := (_load_existing_database (Embedding := Embedding) face_encodings).
Local Abbreviation loadable := (fun ent : DirEnt Image => is_loaded face_encodings ent = true).
Local Abbreviation track := (start_tracking face_distance frame_shape crop).

Lemma load_entry_ledger (t : Tracker) (ent : DirEnt Image) :
  person_metadata (load_entry face_encodings t ent) = person_metadata t /\
  config_of (load_entry face_encodings t ent) = config_of t.
Proof.
  unfold load_entry.
  repeat match goal with
         | |- context [match ?x with _ => _ end] => destruct x
         end; split; reflexivity.
Qed.

Lemma load_entries_gallery (ents : list (DirEnt Image)) (t : Tracker) :
  let t' := foldl (load_entry face_encodings) t ents in
  known_names t' = known_names t ++ map de_name (filter loadable ents) /\
  known_faces t'
  = known_faces t ++ omap (reference_of face_encodings) (filter loadable ents) /\
  person_metadata t' = person_metadata t /\
  config_of t' = config_of t.
Proof.
  cbv zeta. revert t. induction ents as [|ent ents IH]; intros t; simpl.
  - rewrite !app_nil_r. auto.
  - destruct (IH (load_entry face_encodings t ent)) as (Hn & Hf & Hm & Hc).
    rewrite Hn, Hf, Hm, Hc. clear IH Hn Hf Hm Hc.
    destruct (load_entry_ledger t ent) as [-> ->].
    pose proof (load_entry_gallery face_encodings t ent) as H. cbv zeta in H.
    pose proof (is_loaded_reference face_encodings ent) as Hl.
    unfold is_loaded in Hl.
    destruct (is_person_folder ent) eqn:Hp; simpl in Hl.
    + destruct (reference_of face_encodings ent) as [enc|] eqn:Hr.
      * destruct H as (-> & -> & _).
        rewrite filter_cons_True
          by (unfold is_loaded; rewrite Hp, Hr; reflexivity).
        simpl. rewrite Hr, <- !app_assoc. auto.
      * unfold gallery_of in H. injection H as -> -> _ _ _ _ _ _.
        rewrite filter_cons_False
          by (unfold is_loaded; rewrite Hp, Hr; simpl; discriminate).
        auto.
    + unfold gallery_of in H. injection H as -> -> _ _ _ _ _ _.
      rewrite filter_cons_False
        by (unfold is_loaded; rewrite Hp; simpl; discriminate).
      auto.
Qed.

(** X10: after a load that returns, the gallery holds, after what it held
    before and in listing order, exactly the [Person_] folders whose first
    image file can be read and shows a face, each with the first encoding
    of that image; the ledger is the content of [metadata.json] when the
    file exists; the configuration is untouched. *)
Theorem load_gallery_is_loadable_folders (fs : FS Image) (t0 t : Tracker) :
  load fs t0 = (t, Ok tt) ->
  known_names t = known_names t0 ++ map de_name (filter loadable (entries fs)) /\
  known_faces t
  = known_faces t0
    ++ omap (reference_of face_encodings) (filter loadable (entries fs)) /\
  person_metadata t = match metadata_json fs with
                      | MetaPresent m => m
                      | _ => person_metadata t0
                      end /\
  config_of t = config_of t0.
Proof.
  unfold _load_existing_database.
  destruct (metadata_json fs) as [| |m]; intros [= <-].
  - apply (load_entries_gallery (entries fs) t0).
  - destruct (load_entries_gallery (entries fs) (set_person_metadata m t0))
      as (Hn & Hf & Hm & Hc).
    rewrite Hn, Hf, Hm, Hc. auto.
Qed.

Lemma load_names (fs : FS Image) (t0 t : Tracker) :
  load fs t0 = (t, Ok tt) ->
  known_names t = known_names t0 ++ map de_name (filter loadable (entries fs)).
Proof.
  unfold _load_existing_database.
  destruct (metadata_json fs) as [| |m]; intros [= <-].
  - apply (load_entries_gallery (entries fs) t0).
  - apply (load_entries_gallery (entries fs) (set_person_metadata m t0)).
Qed.

Lemma loaded_names_bounded (fs : FS Image) (t0 t : Tracker) :
  load fs t0 = (t, Ok tt) -> known_names t0 = [] -> names_bounded t.
Proof.
  intros Hload Hnil name n Hin Hnum.
  pose proof (load_names fs t0 t Hload) as Hn.
  rewrite Hn, Hnil in Hin. simpl in Hin.
  apply list_elem_of_fmap in Hin as (ent & -> & Hent).
  apply list_elem_of_filter in Hent as [Hl Hent].
  rewrite (load_count face_encodings fs t0 t Hload).
  apply max_from_ge_elem. unfold loaded_ids.
  apply list_elem_of_omap. exists ent. split; [exact Hent|]. now rewrite Hl.
Qed.

(** X12: if the folder names of the catalog are distinct (as directory
    entries are), the names in the gallery are pairwise distinct after the
    load and stay so through any run of [start_tracking]: no name is ever
    given to two gallery entries, and no registration reuses the name of
    an identity that is in the gallery. *)
Theorem gallery_names_stay_distinct (fs : FS Image) db interval threshold
    min_size confidence (t : Tracker) show reads cleanup_write_fails
    cleanup_write_truncates (w : World) :
  NoDup (map de_name (entries fs)) ->
  load fs (init_tracker db interval threshold min_size confidence) = (t, Ok tt) ->
  trk w = t ->
  NoDup (known_names t) /\
  NoDup (known_names (trk (fst (track show reads cleanup_write_fails
                                  cleanup_write_truncates w)))).
Proof.
  intros Hnd Hload Hw.
  assert (H0 : NoDup (known_names t) /\ names_bounded t).
  { split; [|eapply loaded_names_bounded; [exact Hload|reflexivity]].
    rewrite (load_names fs _ t Hload).
    simpl. eapply sublist_NoDup; [exact Hnd|].
    apply fmap_sublist, sublist_filter. }
  split; [apply H0|].
  destruct (start_tracking_lift face_distance frame_shape crop
              (fun t1 t2 => NoDup (known_names t1) /\ names_bounded t1 ->
                            NoDup (known_names t2) /\ names_bounded t2))
    with (show := show) (reads := reads)
         (cleanup_write_fails := cleanup_write_fails)
         (cleanup_write_truncates := cleanup_write_truncates) (w := w) as [_ H];
    [auto|auto|auto| |rewrite Hw in H; now apply H].
  intros frame d w0 [Hd Hb].
  destruct (process_face_tracker face_distance frame_shape crop frame d w0)
    as (_ & [(_ & Hn & Hc & _)|Hnew]).
  - split; [now rewrite Hn|]. intros name n. rewrite Hn, Hc. apply Hb.
  - destruct Hnew as (_ & _ & Hn & Hc & _). split.
    + rewrite Hn. apply NoDup_app. split; [exact Hd|]. split.
      * intros name Hin Hnew. apply list_elem_of_singleton in Hnew as ->.
        assert (Hnum : person_num (person_name (person_count (trk w0) + 1))
                       = Some (person_count (trk w0) + 1)).
        { unfold person_num. rewrite split_person_name. apply int_pretty. }
        pose proof (Hb _ _ Hin Hnum). lia.
      * apply NoDup_singleton.
    + intros name n. rewrite Hn, Hc. intros Hin Hnum.
      apply elem_of_app in Hin as [Hin|Hin].
      * pose proof (Hb _ _ Hin Hnum). lia.
      * apply list_elem_of_singleton in Hin as ->.
        unfold person_num in Hnum. rewrite split_person_name, int_pretty in Hnum.
        injection Hnum as <-. lia.
Qed.

End Startup.

(** ** Leaving the loop, and what a save does to the disk *)

Section Teardown.

Context {Embedding Frame Image : Type}.
Variable face_distance : Embedding -> Embedding -> Q.
Variable frame_shape : Frame -> Z * Z.
Variable crop : Frame -> Z -> Z -> Z -> Z -> Image.

Local Abbreviation World := (World Embedding Image).
Local Abbreviation Tracker := (Tracker Embedding).
Local Abbreviation save := (_save_person_image (Embedding := Embedding) frame_shape crop).
Local Abbreviation bodies := (process_faces face_distance frame_shape crop).
Local Abbreviation loop := (tracking_loop face_distance frame_shape crop).
Local Abbreviation track := (start_tracking face_distance frame_shape crop).

(** X13: the loop over a sequence of camera reads is the loop over its
    first part followed, if that part did not end the loop, by the loop
    over the rest from the state reached; once the loop has ended, later
    reads are never consumed. *)
Theorem tracking_loop_app show (reads1 reads2 : list (CameraRead Embedding Frame))
    (w : World) :
  loop show (reads1 ++ reads2) w
  = match loop show reads1 w with
    | (w1, StillLooping) => loop show reads2 w1
    | stopped => stopped
    end.
Proof.
  revert w. induction reads1 as [|r reads1 IH]; intros w; [reflexivity|].
  destruct r as [| |frame found key]; simpl; try reflexivity.
  destruct (bodies frame (_detect_faces (trk w) found) w) as [w1 [ps|e]];
    [|reflexivity].
  destruct (show && key)%bool; [reflexivity|apply IH].
Qed.

(** X14: without the preview window no key press ends the loop: when
    [show_preview] is false and the loop ends by [break], the camera
    failed to deliver a frame. *)
Theorem headless_loop_breaks_only_on_read_failure
    (reads : list (CameraRead Embedding Frame)) (w w' : World) :
  loop false reads w = (w', Broke) -> ReadFailed ∈ reads.
Proof.
  revert w. induction reads as [|r reads IH]; intros w; simpl; [discriminate|].
  destruct r as [| |frame found key]; simpl.
  - intros _. apply list_elem_of_here.
  - discriminate.
  - destruct (bodies frame (_detect_faces (trk w) found) w) as [w1 [ps|e]];
      [|discriminate].
    intros H. apply list_elem_of_further. eapply IH. exact H.
Qed.

(** X15: however the loop ends (camera failure, quit key, interrupt or an
    exception), [start_tracking] runs [cleanup]: if the final ledger write
    succeeds it returns, [metadata.json] holds the ledger that is in
    memory and the last log line is the completion message; if that write
    fails the [OSError] leaves [start_tracking]. *)
Theorem start_tracking_always_cleans_up show reads cleanup_write_fails
    cleanup_write_truncates (w w' : World) (out : Outcome) :
  track show reads cleanup_write_fails cleanup_write_truncates w = (w', out) ->
  out <> Running ->
  CleaningUp ∈ log (trk w') /\
  (cleanup_write_fails = false ->
   out = Returned /\
   metadata_json (disk w') = MetaPresent (person_metadata (trk w')) /\
   last (log (trk w')) = Some CleanupCompleted) /\
  (cleanup_write_fails = true -> out = Propagated OSError).
Proof.
  unfold start_tracking.
  destruct (loop show reads (on_trk (add_log StartingTracking) w)) as [w1 stop].
  unfold cleanup, bind, modify, _save_metadata, on_trk, on_disk.
  destruct stop, cleanup_write_fails, cleanup_write_truncates; simpl;
    intros [= <- <-] Hrun;
    try congruence; simpl;
    (split; [rewrite ?elem_of_app, ?list_elem_of_singleton; now auto|]);
    (split; intros Hf;
       first [discriminate Hf
             |reflexivity
             |split; [reflexivity|split; [reflexivity|apply last_snoc]]]).
Qed.

Ltac open_save :=
  unfold _save_person_image, _create_person_folder, _save_metadata,
    bind, ret, raise, modify, bump_metadata, on_trk, on_disk.

(** X16: after a call of [_save_person_image] that returns, if the ledger
    has a record for the identity then [metadata.json] holds exactly the
    ledger that is in memory. *)
Theorem ledger_file_in_sync_after_save frame loc person_id env (w w' : World) path :
  save frame loc person_id env w = (w', Ok path) ->
  is_Some (person_metadata (trk w') !! person_id) ->
  metadata_json (disk w') = MetaPresent (person_metadata (trk w')).
Proof.
  open_save.
  destruct (fs_exists person_id (disk w)).
  - destruct (imwrite env); simpl;
      destruct (person_metadata (trk w) !! person_id) as [r|] eqn:Hr; simpl;
      try destruct (meta_write_update_fails env); simpl;
      intros [= <- <-]; simpl; intros [r' Hr'];
      try reflexivity; congruence.
  - destruct (makedirs_fails env); simpl; [discriminate|].
    destruct (meta_write_create_fails env); simpl; [discriminate|].
    destruct (imwrite env); simpl; rewrite ?lookup_insert_eq; simpl;
      try destruct (meta_write_update_fails env); simpl;
      intros [= <- <-]; simpl; intros _; reflexivity.
Qed.

(** X17: when [cv2.imwrite] returns false without raising, the call of
    [_save_person_image] still returns the path, logs it as saved and
    counts one image more in the ledger, while the folder holds the same
    files as before. *)
Theorem unwritten_image_is_still_counted frame loc person_id env (w : World)
    (r : Meta) :
  imwrite env = NotWritten ->
  meta_write_update_fails env = false ->
  fs_exists person_id (disk w) = true ->
  fs_writable person_id (disk w) ->
  person_metadata (trk w) !! person_id = Some r ->
  exists w',
    save frame loc person_id env w
    = (w', Ok (image_filepath (database_path (trk w)) person_id env)) /\
    fs_files person_id (disk w') = fs_files person_id (disk w) /\
    person_metadata (trk w') !! person_id
    = Some (mkMeta (created r) (total_images r + 1) (iso_seen env)) /\
    last (log (trk w'))
    = Some (SavedImage (image_filepath (database_path (trk w)) person_id env)).
Proof.
  intros Hw Hm Hex Hwr Hr.
  assert (Hsave : exists w', save frame loc person_id env w
            = (w', Ok (image_filepath (database_path (trk w)) person_id env)) /\
            last (log (trk w'))
            = Some (SavedImage (image_filepath (database_path (trk w))
                                  person_id env))).
  { open_save. rewrite Hex, Hw. simpl. rewrite Hr. simpl. rewrite Hm. simpl.
    eexists. split; [reflexivity|]. simpl. apply last_snoc. }
  destruct Hsave as (w' & Hsave & Hlog). exists w'.
  split; [exact Hsave|].
  destruct (save_folder frame_shape crop _ _ _ _ _ _ _ Hsave Hwr)
    as (_ & ent & Hl & Hd & Hf).
  rewrite Hw in Hf.
  pose proof (save_ledger frame_shape crop _ _ _ _ _ _ _ Hsave) as Hled.
  rewrite Hex, Hr in Hled.
  split; [|split; [exact Hled|exact Hlog]].
  unfold fs_files at 1. fold (fs_lookup person_id (disk w')).
  now rewrite Hl, Hd.
Qed.

Lemma find_write_other (name other fname : string) (c : FileContent Image)
    (ents : list (DirEnt Image)) :
  other <> name ->
  List.find (fun ent => String.eqb (de_name ent) other)
    (write_entries name fname c ents)
  = List.find (fun ent => String.eqb (de_name ent) other) ents.
Proof.
  intros Hne. induction ents as [|ent ents IH]; simpl; [reflexivity|].
  destruct (String.eqb (de_name ent) name) eqn:E; simpl.
  - apply String.eqb_eq in E.
    assert (Hno : String.eqb (de_name ent) other = false)
      by (apply String.eqb_neq; congruence).
    destruct (de_isdir ent); simpl; rewrite ?Hno; reflexivity.
  - destruct (String.eqb (de_name ent) other); [reflexivity|exact IH].
Qed.

Lemma lookup_makedirs_other (name other : string) (fs : FS Image) :
  other <> name -> fs_lookup other (fs_makedirs name fs) = fs_lookup other fs.
Proof.
  intros Hne. unfold fs_makedirs, fs_lookup.
  destruct (fs_exists name fs); [reflexivity|]. simpl.
  induction (entries fs) as [|ent ents IH]; simpl.
  - assert (String.eqb name other = false) as ->
        by (apply String.eqb_neq; congruence).
    reflexivity.
  - destruct (String.eqb (de_name ent) other); [reflexivity|exact IH].
Qed.

Lemma save_keeps_other frame loc person_id env (other : string) :
  other <> person_id ->
  keeps (fun w0 : World =>
           (fs_lookup other (disk w0), person_metadata (trk w0) !! other))
        (save frame loc person_id env).
Proof.
  intros Hne.
  set (f := fun w0 : World =>
              (fs_lookup other (disk w0), person_metadata (trk w0) !! other)).
  assert (Hmeta : forall fails truncated, keeps f (_save_metadata fails truncated)).
  { intros fails truncated w0. unfold _save_metadata.
    destruct fails, truncated; reflexivity. }
  assert (Hins : forall m0, keeps f (modify (on_trk (fun t : Tracker =>
             set_person_metadata (<[person_id := m0]> (person_metadata t)) t)))).
  { intros m0. apply keeps_modify. intros w0. unfold f. simpl.
    rewrite lookup_insert_ne by congruence. reflexivity. }
  intros w0. unfold _save_person_image.
  refine (keeps_bind f _ _ _ _ w0).
  { apply keeps_if; [apply keeps_ret|]. intros w1. unfold _create_person_folder.
    refine (keeps_bind f _ _ _ _ w1).
    { apply keeps_if; [apply keeps_raise|]. apply keeps_modify.
      intros w2. unfold f. simpl. now rewrite lookup_makedirs_other. }
    intros _. apply keeps_bind; [apply Hins|].
    intros _. apply keeps_bind; [apply Hmeta|]. intros _. apply keeps_ret. }
  intros _. apply keeps_bind.
  { destruct (imwrite env); [|apply keeps_ret|apply keeps_raise].
    apply keeps_modify. intros w1. unfold f, fs_lookup, fs_write. simpl.
    now rewrite find_write_other. }
  intros _. apply keeps_bind.
  { intros w1. destruct (person_metadata (trk w1) !! person_id) as [r|];
      [|reflexivity].
    refine (keeps_bind f _ _ _ _ w1); [|intros _; apply Hmeta].
    apply keeps_modify. intros w2. unfold f, bump_metadata. simpl.
    destruct (person_metadata (trk w2) !! person_id); [|reflexivity].
    rewrite lookup_insert_ne by congruence. reflexivity. }
  intros _. apply keeps_bind; [now apply keeps_modify|].
  intros _. apply keeps_ret.
Qed.


End Teardown.

(** ** Statistics *)

Section Statistics.

Context {Embedding Frame Image : Type}.
Variable frame_shape : Frame -> Z * Z.
Variable crop : Frame -> Z -> Z -> Z -> Z -> Image.

Local Abbreviation World := (World Embedding Image).
Local Abbreviation Tracker := (Tracker Embedding).
Local Abbreviation save := (_save_person_image (Embedding := Embedding) frame_shape crop).
Local Abbreviation is_image := (fun f : string * FileContent Image => is_image_name (fst f) = true).
Local Abbreviation entry_of := (fun (t : Tracker) (fs : FS Image) (person_id : string) =>
  mkPersonStats (Z.of_nat (length (filter is_image (fs_files person_id fs))))
    (person_metadata t !! person_id)).

Lemma fs_files_lookup (name : string) (fs : FS Image) (ent : DirEnt Image) :
  fs_lookup name fs = Some ent -> de_isdir ent = true ->
  fs_files name fs = de_files ent.
Proof.
  intros Hl Hd. unfold fs_files. fold (fs_lookup name fs). now rewrite Hl, Hd.
Qed.

Lemma stats_persons_spec (t : Tracker) (fs : FS Image) (names : list string)
    (acc : gmap string PersonStats) :
  (forall name, name ∈ names -> fs_writable name fs) ->
  exists ps,
    stats_persons t fs names acc = Ok ps /\
    forall person_id,
      ps !! person_id
      = if decide (person_id ∈ names /\ fs_exists person_id fs = true)
        then Some (entry_of t fs person_id)
        else acc !! person_id.
Proof.
  revert acc. induction names as [|name names IH]; intros acc Hwr.
  - exists acc. split; [reflexivity|]. intros person_id.
    destruct (decide _) as [[Hin _]|_]; [inversion Hin|reflexivity].
  - assert (Hwr' : forall n, n ∈ names -> fs_writable n fs)
      by (intros n Hn; apply Hwr; now apply list_elem_of_further).
    pose proof (Hwr name (list_elem_of_here _ _)) as Hname.
    unfold fs_writable in Hname. simpl.
    pose proof (fs_exists_lookup name fs) as Hex.
    destruct (fs_lookup name fs) as [ent|] eqn:Hl.
    + rewrite Hname.
      destruct (IH (<[name := mkPersonStats
                                (Z.of_nat (length (filter is_image (de_files ent))))
                                (person_metadata t !! name)]> acc) Hwr')
        as (ps & Hps & Hspec).
      exists ps. split; [exact Hps|]. intros person_id. rewrite Hspec.
      destruct (decide (person_id ∈ names /\ fs_exists person_id fs = true))
        as [[Hin He]|Hno].
      * rewrite decide_True; [reflexivity|].
        split; [now apply list_elem_of_further|exact He].
      * destruct (decide (name = person_id)) as [<-|Hne].
        -- rewrite lookup_insert_eq, decide_True.
           ++ now rewrite (fs_files_lookup name fs ent Hl Hname).
           ++ split; [apply list_elem_of_here|]. rewrite Hex. reflexivity.
        -- rewrite lookup_insert_ne by exact Hne.
           rewrite decide_False; [reflexivity|].
           intros [Hin He]. apply Hno. split; [|exact He].
           apply elem_of_cons in Hin as [->|Hin]; [congruence|exact Hin].
    + destruct (IH acc Hwr') as (ps & Hps & Hspec).
      exists ps. split; [exact Hps|]. intros person_id. rewrite Hspec.
      destruct (decide (person_id ∈ names /\ fs_exists person_id fs = true))
        as [[Hin He]|Hno].
      * rewrite decide_True; [reflexivity|].
        split; [now apply list_elem_of_further|exact He].
      * rewrite decide_False; [reflexivity|].
        intros [Hin He]. apply Hno. split; [|exact He].
        apply elem_of_cons in Hin as [->|Hin]; [|exact Hin].
        rewrite Hex in He. discriminate He.
Qed.

Lemma get_statistics_spec_aux (w : World) :
  (forall name, name ∈ known_names (trk w) -> fs_writable name (disk w)) ->
  exists st,
    get_statistics w = Ok st /\
    forall person_id,
      persons st !! person_id
      = if decide (person_id ∈ known_names (trk w) /\
                   fs_exists person_id (disk w) = true)
        then Some (entry_of (trk w) (disk w) person_id)
        else None.
Proof.
  intros Hwr. unfold get_statistics.
  destruct (stats_persons_spec (trk w) (disk w) (known_names (trk w)) ∅ Hwr)
    as (ps & -> & Hspec).
  eexists. split; [reflexivity|]. simpl. intros person_id. rewrite Hspec.
  destruct (decide _); [reflexivity|apply lookup_empty].
Qed.

(** X19: when no gallery name is taken by a plain file, [get_statistics]
    returns; [total_persons] is the number of gallery entries; [persons]
    has an entry exactly for the gallery names whose folder exists, with
    the number of image files found in the folder (not the ledger's count)
    and the ledger record, if there is one. *)
Theorem get_statistics_counts_files (w : World) :
  (forall name, name ∈ known_names (trk w) -> fs_writable name (disk w)) ->
  exists st,
    get_statistics w = Ok st /\
    total_persons st = Z.of_nat (length (known_names (trk w))) /\
    st_database_path st = database_path (trk w) /\
    forall person_id,
      persons st !! person_id
      = if decide (person_id ∈ known_names (trk w) /\
                   fs_exists person_id (disk w) = true)
        then Some (entry_of (trk w) (disk w) person_id)
        else None.
Proof.
  intros Hwr. unfold get_statistics.
  destruct (stats_persons_spec (trk w) (disk w) (known_names (trk w)) ∅ Hwr)
    as (ps & -> & Hspec).
  eexists. split; [reflexivity|]. simpl. split; [reflexivity|].
  split; [reflexivity|]. intros person_id. rewrite Hspec.
  destruct (decide _); [reflexivity|apply lookup_empty].
Qed.

Lemma stats_persons_raises (t : Tracker) (fs : FS Image) (names : list string)
    (acc : gmap string PersonStats) (name : string) (ent : DirEnt Image) :
  name ∈ names -> fs_lookup name fs = Some ent -> de_isdir ent = false ->
  stats_persons t fs names acc = Raise OSError.
Proof.
  intros Hin Hl Hd. revert acc.
  induction names as [|n names IH]; intros acc; [inversion Hin|]. simpl.
  destruct (decide (n = name)) as [->|Hne].
  - now rewrite Hl, Hd.
  - apply elem_of_cons in Hin as [->|Hin]; [congruence|].
    destruct (fs_lookup n fs) as [ent'|]; [|now apply IH].
    destruct (de_isdir ent'); [now apply IH|reflexivity].
Qed.

(** X20: when a gallery name is taken by a plain file in the database
    directory, [get_statistics] raises ([os.listdir] on a non-directory)
    instead of returning statistics. *)
Theorem get_statistics_raises_on_plain_file (w : World) (name : string)
    (ent : DirEnt Image) :
  name ∈ known_names (trk w) ->
  fs_lookup name (disk w) = Some ent ->
  de_isdir ent = false ->
  get_statistics w = Raise OSError.
Proof.
  intros Hin Hl Hd. unfold get_statistics.
  now rewrite (stats_persons_raises (trk w) (disk w) _ ∅ name ent Hin Hl Hd).
Qed.

Lemma filter_write_in (fname : string) (c : FileContent Image)
    (files : list (string * FileContent Image)) :
  is_image_name fname = true ->
  length (filter is_image (write_in fname c files))
  = (length (filter is_image files)
     + if bool_decide (fname ∈ map fst files) then 0 else 1)%nat.
Proof.
  intros Himg. induction files as [|[n c0] files IH]; simpl.
  - rewrite filter_cons_True by exact Himg. reflexivity.
  - destruct (String.eqb n fname) eqn:E.
    + apply String.eqb_eq in E as ->.
      rewrite !filter_cons_True by exact Himg.
      rewrite bool_decide_eq_true_2 by apply list_elem_of_here. simpl. lia.
    + apply String.eqb_neq in E.
      assert (Hdec : bool_decide (fname ∈ n :: map fst files)
                     = bool_decide (fname ∈ map fst files)).
      { apply bool_decide_ext. rewrite elem_of_cons. split; [|tauto].
        intros [->|H]; [congruence|exact H]. }
      rewrite Hdec, !filter_cons.
      destruct (decide (is_image_name (fst (n, c0)) = true)); simpl;
        rewrite IH; reflexivity.
Qed.

(** X21: after an image of a gallery identity has been written, the
    statistics report for it the number of image files now in its folder:
    one more than before when the file name is new, the same number when
    the name was already there (the file was replaced), although the
    ledger counts one more in both cases. *)
Theorem statistics_after_save frame loc person_id env (w w' : World) path :
  save frame loc person_id env w = (w', Ok path) ->
  imwrite env = Written ->
  person_id ∈ known_names (trk w) ->
  (forall name, name ∈ known_names (trk w) -> fs_writable name (disk w)) ->
  exists st,
    get_statistics w' = Ok st /\
    persons st !! person_id
    = Some (mkPersonStats
              (Z.of_nat (length (filter is_image (fs_files person_id (disk w)))
                         + if bool_decide (image_filename person_id env
                                           ∈ map fst (fs_files person_id (disk w)))
                           then 0 else 1))
              (person_metadata (trk w') !! person_id)).
Proof.
  intros Hsave Hw Hin Hwr.
  destruct (save_folder frame_shape crop _ _ _ _ _ _ _ Hsave (Hwr _ Hin))
    as (_ & ent & Hl & Hd & Hf).
  rewrite Hw in Hf.
  pose proof (save_gallery frame_shape crop frame loc person_id env w) as Hg.
  rewrite Hsave in Hg. unfold gallery_of in Hg. simpl in Hg.
  injection Hg as _ Hnames _ _ _ _ _ _.
  assert (Hwr' : forall name, name ∈ known_names (trk w') ->
                              fs_writable name (disk w')).
  { intros name Hn. rewrite Hnames in Hn. unfold fs_writable.
    destruct (decide (name = person_id)) as [->|Hne].
    - now rewrite Hl.
    - pose proof (save_keeps_other frame_shape crop frame loc person_id env
                    name Hne w) as Hk.
      rewrite Hsave in Hk. simpl in Hk. injection Hk as Hk _. rewrite Hk.
      apply (Hwr name Hn). }
  destruct (get_statistics_spec_aux w' Hwr') as (st & Hst & Hspec).
  exists st. split; [exact Hst|]. rewrite Hspec.
  rewrite decide_True.
  - rewrite (fs_files_lookup person_id (disk w') ent Hl Hd), Hf.
    rewrite filter_write_in by apply jpg_name_is_image. reflexivity.
  - split; [now rewrite Hnames|]. rewrite fs_exists_lookup, Hl. reflexivity.
Qed.

End Statistics.

(** ** From one run to the next *)

Section Restart.

Context {Embedding Frame Image : Type}.
Variable face_distance : Embedding -> Embedding -> Q.
Variable face_encodings : Image -> list Embedding.
Variable frame_shape : Frame -> Z * Z.
Variable crop : Frame -> Z -> Z -> Z -> Z -> Image.

Local Abbreviation World := (World Embedding Image).
Local Abbreviation Tracker := (Tracker Embedding).
Local Abbreviation load := (_load_existing_database (Embedding := Embedding) face_encodings).
Local Abbreviation body := (process_face face_distance frame_shape crop).
Local Abbreviation loadable := (fun ent : DirEnt Image => is_loaded face_encodings ent = true).

Lemma prefix_app (a b : string) : String.prefix a (a +:+ b) = true.
Proof.
  induction a as [|c a IH].
  - destruct b; reflexivity.
  - change (String c a +:+ b) with (String c (a +:+ b)). cbn [String.prefix].
    destruct (Ascii.ascii_dec c c); [exact IH|congruence].
Qed.

Lemma fs_lookup_elem (name : string) (fs : FS Image) (ent : DirEnt Image) :
  fs_lookup name fs = Some ent -> ent ∈ entries fs /\ de_name ent = name.
Proof.
  unfold fs_lookup. intros H. apply List.find_some in H as [Hin Heq].
  split; [now apply list_elem_of_In|now apply String.eqb_eq].
Qed.

(** X22: an identity registered in one run whose first image was written
    into a new folder is found again by the next start, provided a face is
    found in the saved image: it is in the gallery under its name, with
    the first encoding of the saved image as its reference, and the
    counter is at least its id, so the id is not handed out again. *)
Theorem registered_identity_survives_restart frame (d : Detection Embedding)
    (w w' : World) (t0 t2 : Tracker) (enc' : Embedding) (encs : list Embedding)
    (result : string) :
  let name := person_name (person_count (trk w) + 1) in
  _identify_person face_distance (det_encoding d) (trk w) = Ok None ->
  fs_lookup name (disk w) = None ->
  imwrite (save_env (det_env d)) = Written ->
  body frame d w = (w', Ok result) ->
  face_encodings (face_region frame_shape crop frame (det_location d))
  = enc' :: encs ->
  load (disk w') t0 = (t2, Ok tt) ->
  result = name /\
  name ∈ known_names t2 /\
  enc' ∈ known_faces t2 /\
  person_count (trk w) + 1 <= person_count t2.
Proof.
  cbv zeta. intros Hid Hnone Hw Hbody Henc Hload.
  rewrite (process_face_unmatched_eq face_distance frame_shape crop frame d w Hid)
    in Hbody. cbv zeta in Hbody.
  destruct (_save_person_image _ _ _ _ _ _ _) as [w2 [p|e]] eqn:Hsave;
    [|discriminate]. injection Hbody as -> <-. split; [reflexivity|].
  assert (Hwr : fs_writable (person_name (person_count (trk w) + 1))
                  (disk (mkWorld (fst (_register_new_person (det_encoding d)
                                         (now_check (det_env d)) (trk w)))
                           (disk w)))).
  { unfold fs_writable. simpl. now rewrite Hnone. }
  destruct (save_folder frame_shape crop _ _ _ _ _ _ _ Hsave Hwr)
    as (_ & ent & Hl & Hd & Hf).
  rewrite Hw in Hf. unfold fs_files in Hf. simpl in Hf.
  fold (fs_lookup (person_name (person_count (trk w) + 1)) (disk w)) in Hf.
  rewrite Hnone in Hf. simpl in Hf.
  destruct (fs_lookup_elem _ _ _ Hl) as [Hent Hname].
  assert (Hfolder : is_person_folder ent = true).
  { unfold is_person_folder. rewrite Hd, Hname. apply prefix_app. }
  assert (Href : reference_of face_encodings ent = Some enc').
  { unfold reference_of. rewrite Hf.
    rewrite filter_cons_True by (simpl; apply jpg_name_is_image).
    simpl. rewrite Henc. reflexivity. }
  assert (Hloaded : is_loaded face_encodings ent = true).
  { unfold is_loaded. rewrite Hfolder, Href. reflexivity. }
  assert (Hfil : ent ∈ filter loadable (entries (disk w'))).
  { apply list_elem_of_filter. split; [exact Hloaded|exact Hent]. }
  split; [|split].
  - rewrite (load_names face_encodings _ _ _ Hload). apply elem_of_app. right.
    apply list_elem_of_fmap. exists ent. split; [now rewrite Hname|exact Hfil].
  - unfold _load_existing_database in Hload.
    assert (Hfaces : forall t1,
              enc' ∈ known_faces (foldl (load_entry face_encodings) t1
                                    (entries (disk w')))).
    { intros t1.
      destruct (load_entries_gallery face_encodings (entries (disk w')) t1)
        as (_ & -> & _).
      apply elem_of_app. right. apply list_elem_of_omap. eauto. }
    destruct (metadata_json (disk w')); [|discriminate Hload|];
      injection Hload as <-; apply Hfaces.
  - rewrite (load_count face_encodings _ _ _ Hload).
    apply max_from_ge_elem. unfold loaded_ids. apply list_elem_of_omap.
    exists ent. split; [exact Hent|]. rewrite Hloaded, Hname.
    unfold person_num. rewrite split_person_name. apply int_pretty.
Qed.

End Restart.

(** ** Failures while an image is persisted *)

Section Failures.

Context {Embedding Frame Image : Type}.
Variable face_distance : Embedding -> Embedding -> Q.
Variable frame_shape : Frame -> Z * Z.
Variable crop : Frame -> Z -> Z -> Z -> Z -> Image.

Local Abbreviation World := (World Embedding Image).
Local Abbreviation Tracker := (Tracker Embedding).
Local Abbreviation save := (_save_person_image (Embedding := Embedding) frame_shape crop).
Local Abbreviation body := (process_face face_distance frame_shape crop).
Local Abbreviation bodies := (process_faces face_distance frame_shape crop).
Local Abbreviation loop := (tracking_loop face_distance frame_shape crop).
Local Abbreviation track := (start_tracking face_distance frame_shape crop).

Ltac open_save :=
  unfold _save_person_image, _create_person_folder, _save_metadata,
    bind, ret, raise, modify, bump_metadata, on_trk, on_disk.







End Failures.

(** ** The first re-sighting after a restart *)

Section Resighting.

Context {Embedding Frame Image : Type}.
Variable face_distance : Embedding -> Embedding -> Q.
Variable face_encodings : Image -> list Embedding.
Variable frame_shape : Frame -> Z * Z.
Variable crop : Frame -> Z -> Z -> Z -> Z -> Image.

Local Abbreviation World := (World Embedding Image).
Local Abbreviation Tracker := (Tracker Embedding).
Local Abbreviation load := (_load_existing_database (Embedding := Embedding) face_encodings).
Local Abbreviation body := (process_face face_distance frame_shape crop).
Local Abbreviation bodies := (process_faces face_distance frame_shape crop).
Local Abbreviation loop := (tracking_loop face_distance frame_shape crop).
Local Abbreviation others := (seen_only_others face_distance frame_shape crop).

(** Passes through the loop body that are about other identities leave
    the capture timer of [person_id] and the update interval as they
    are. *)
Lemma others_keep_timer (person_id : string) (w w1 : World) :
  others person_id w w1 ->
  last_update_time (trk w1) !! person_id = last_update_time (trk w) !! person_id /\
  update_interval (trk w1) = update_interval (trk w).
Proof.
  induction 1 as [|msg w1 Hseen IH|frame d w1 Hseen [IHl IHi] Hsub];
    [split; reflexivity|exact IH|].
  destruct (process_face_tracker face_distance frame_shape crop frame d w1)
    as (Hc & Hcases).
  split.
  - rewrite <- IHl. unfold subject_of in Hsub.
    destruct Hcases as [(_ & _ & _ & Hl)|Hnew].
    + destruct Hl as [->|(pid & Hid & ->)]; [reflexivity|].
      rewrite Hid in Hsub. apply lookup_insert_ne. congruence.
    + destruct Hnew as (Hid & _ & _ & _ & ->). rewrite Hid in Hsub.
      apply lookup_insert_ne. congruence.
  - rewrite <- IHi. unfold config_of in Hc. now injection Hc as _ -> _ _ _.
Qed.

Lemma others_trans (person_id : string) (w w1 w2 : World) :
  others person_id w w1 -> others person_id w1 w2 -> others person_id w w2.
Proof.
  intros H1 H2. induction H2 as [|msg w2 _ IH|frame d w2 _ IH Hsub];
    [exact H1|now apply seen_log|now apply seen_other].
Qed.

(** The worlds the loop passes through are reached by such steps, as long
    as no face about [person_id] is processed. *)
Lemma bodies_seen_only_others (person_id : string) frame
    (ds : list (Detection Embedding)) (w : World) :
  Some person_id ∉ bodies_subjects face_distance frame_shape crop frame ds w ->
  others person_id w (fst (bodies frame ds w)).
Proof.
  revert w. induction ds as [|d ds IH]; intros w; simpl; [intros _; apply seen_none|].
  rewrite not_elem_of_cons. intros [Hd Hrest].
  pose proof (seen_other face_distance frame_shape crop person_id w frame d w
                (seen_none _ _ _ _ _) (not_eq_sym Hd)) as Hstep.
  unfold bind at 1.
  destruct (body frame d w) as [w1 [p|e]]; simpl in *; [|exact Hstep].
  unfold bind at 1. specialize (IH w1 Hrest).
  destruct (bodies frame ds w1) as [w2 [ps|e]]; simpl in *;
    eapply others_trans; eassumption.
Qed.

Lemma loop_seen_only_others (person_id : string) show
    (reads : list (CameraRead Embedding Frame)) (w : World) :
  Some person_id ∉ loop_subjects face_distance frame_shape crop show reads w ->
  others person_id w (fst (loop show reads w)).
Proof.
  revert w. induction reads as [|r reads IH]; intros w; [intros _; apply seen_none|].
  destruct r as [| |frame found key]; simpl;
    [intros _; apply seen_log, seen_none|intros _; apply seen_none|].
  rewrite not_elem_of_app. intros [Hframe Hrest].
  pose proof (bodies_seen_only_others person_id frame _ w Hframe) as Hp.
  destruct (bodies frame (_detect_faces (trk w) found) w) as [w1 [ps|e]];
    simpl in *; [|exact Hp].
  destruct (show && key)%bool; simpl; [exact Hp|].
  eapply others_trans; [exact Hp|now apply IH].
Qed.

(** From the call of [start_tracking] to any face of any frame: if none of
    the faces processed so far was about [person_id], the world in which
    that face is processed is reached by steps about others. *)
Lemma run_seen_only_others (person_id : string) show
    (reads : list (CameraRead Embedding Frame)) frame
    (pre : list (Detection Embedding)) (w : World) :
  let w1 := fst (loop show reads (on_trk (add_log StartingTracking) w)) in
  Some person_id ∉ loop_subjects face_distance frame_shape crop show reads
                     (on_trk (add_log StartingTracking) w) ->
  Some person_id ∉ bodies_subjects face_distance frame_shape crop frame pre w1 ->
  others person_id w (fst (bodies frame pre w1)).
Proof.
  cbv zeta. intros Hloop Hpre.
  eapply others_trans; [|now apply bodies_seen_only_others].
  eapply others_trans; [apply seen_log, seen_none|].
  now apply loop_seen_only_others.
Qed.

(** C10: every identity rebuilt from the disk at startup gets
    [last_update_time] 0, whatever the ledger says about when it was last
    seen, and keeps it while the loop body processes faces of other
    identities (known ones, or strangers that get registered).  So at any
    clock reading of at least [update_interval] the throttle lets the
    first re-sighting of the identity pass, whatever was processed before
    it, and the loop body writes a new image for it and restarts the
    interval. *)
Theorem reloaded_identity_passes_throttle (fs : FS Image)
    (db : string) (interval : Z) (threshold : Q) (min_size : Z * Z)
    (confidence : Q) (t : Tracker) (person_id : string) (now : Q)
    (w w1 : World) :
  load fs (init_tracker db interval threshold min_size confidence) = (t, Ok tt) ->
  person_id ∈ known_names t ->
  (inject_Z interval <= now)%Q ->
  trk w = t ->
  others person_id w w1 ->
  last_update_time t !! person_id = Some 0%Q /\
  last_update_time (trk w1) !! person_id = Some 0%Q /\
  _should_update_person person_id now (trk w1) = true /\
  forall frame (d : Detection Embedding),
    _identify_person face_distance (det_encoding d) (trk w1) = Ok (Some person_id) ->
    now_check (det_env d) = now ->
    save_succeeds (save_env (det_env d)) ->
    fs_writable person_id (disk w1) ->
    exists w',
      body frame d w1 = (w', Ok person_id) /\
      (image_filename person_id (save_env (det_env d)),
       Readable (face_region frame_shape crop frame (det_location d)))
        ∈ fs_files person_id (disk w') /\
      last_update_time (trk w') !! person_id = Some (now_touch (det_env d)).
Proof.
  intros Hload Hin Hnow Hw Hseen.
  assert (Hzero : last_update_time t !! person_id = Some 0%Q).
  { eapply (load_timer_zero face_encodings); [| |exact Hload|exact Hin];
      reflexivity. }
  assert (Hint : update_interval t = interval).
  { pose proof (load_interval face_encodings fs
                  (init_tracker db interval threshold min_size confidence)) as H.
    now rewrite Hload in H. }
  destruct (others_keep_timer person_id w w1 Hseen) as [Hl1 Hi1].
  rewrite Hw in Hl1, Hi1.
  assert (Hzero1 : last_update_time (trk w1) !! person_id = Some 0%Q)
    by now rewrite Hl1.
  assert (Hup : _should_update_person person_id now (trk w1) = true).
  { rewrite should_update_spec, Hzero1, Hi1, Hint. simpl. lra. }
  split; [exact Hzero|]. split; [exact Hzero1|]. split; [exact Hup|].
  intros frame d Hid <- Hok Hwr.
  now apply matched_due_writes.
Qed.

End Resighting.

(** * Concrete runs *)

Import Sample.
Import Scenario.

(** After a restart on a catalog holding [Person_1], [Person_3] and an
    unreadable [Person_4], the counter is 3 and the next registration is
    named [Person_4] again, although 4 is an id of the catalog. *)
Lemma unreadable_folder_id_is_reused :
  load disk_gap_unreadable = (loaded, Ok tt) /\
  catalog_ids disk_gap_unreadable = [1; 3; 4] /\
  person_count loaded = 3 /\
  snd (_register_new_person 9%Q 50%Q loaded) = Ok "Person_4" /\
  fs_exists "Person_4" disk_gap_unreadable = true /\
  person_count loaded + 1 <> max_from 0 (catalog_ids disk_gap_unreadable) + 1.
Proof. vm_compute. repeat split; congruence. Qed.

Lemma next_id_is_gallery_max_plus_one_witness :
  load disk_gap_unreadable = (loaded, Ok tt) /\
  person_count loaded = max_from (person_count fresh)
                          (loaded_ids face_encodings disk_gap_unreadable) /\
  snd (register_all [(9%Q, 50%Q); (20%Q, 51%Q)] loaded)
  = map (fun k => person_name (person_count loaded + Z.of_nat k)) (seq 1 2).
Proof.
  split; [reflexivity|].
  destruct (next_id_is_gallery_max_plus_one face_encodings disk_gap_unreadable
              fresh loaded [(9%Q, 50%Q); (20%Q, 51%Q)] eq_refl)
    as (Hc & _ & Hids & _).
  split; [exact Hc|exact Hids].
Defined.

Lemma identify_iff_below_threshold_witness :
  known_faces loaded <> [] /\
  length (known_names loaded) = length (known_faces loaded) /\
  exists dmin,
    np_min (map (fun k => face_distance k (16 # 10)) (known_faces loaded))
    = Some dmin /\
    ((similarity_threshold loaded <= dmin)%Q <->
     _identify_person face_distance (16 # 10) loaded = Ok None).
Proof.
  assert (H1 : known_faces loaded <> []) by (vm_compute; discriminate).
  assert (H2 : length (known_names loaded) = length (known_faces loaded))
    by reflexivity.
  split; [exact H1|]. split; [exact H2|].
  destruct (identify_iff_below_threshold face_distance frame_shape crop
              (16 # 10) loaded H1 H2) as (dmin & Hmin & _ & _ & Hnone & _).
  exists dmin. split; [exact Hmin|exact Hnone].
Defined.



(** Two images of one identity saved within the same second: one path, and
    only the second image is left in the folder. *)
Lemma same_second_overwrites :
  let e := quiet_save "20240101_120000" in
  let w1 := fst (save [1%Q] "Person_1" e first_start) in
  let w2 := fst (save [2%Q] "Person_1" e w1) in
  snd (save [1%Q] "Person_1" e first_start)
  = Ok "./database/Person_1/Person_1_20240101_120000.jpg" /\
  snd (save [2%Q] "Person_1" e w1)
  = Ok "./database/Person_1/Person_1_20240101_120000.jpg" /\
  fs_files "Person_1" (disk w1)
  = [("Person_1_20240101_120000.jpg", Readable [1%Q])] /\
  fs_files "Person_1" (disk w2)
  = [("Person_1_20240101_120000.jpg", Readable [2%Q])].
Proof. vm_compute. repeat split; reflexivity. Qed.

Lemma image_path_by_stamp_witness :
  let e := quiet_save "20240101_120000" in
  let w1 := fst (save [1%Q] "Person_1" e first_start) in
  let w2 := fst (save [2%Q] "Person_1" e w1) in
  fs_writable "Person_1" (disk first_start) /\
  stamp e = stamp e /\
  fs_files "Person_1" (disk w2)
  = write_in (image_filename "Person_1" e)
      (Readable (face_region frame_shape crop [2%Q] loc0))
      (fs_files "Person_1" (disk first_start)).
Proof.
  cbv zeta. split; [exact I|]. split; [reflexivity|].
  refine (proj2 (proj2 (image_path_by_stamp (Embedding := Embedding)
                          frame_shape crop "Person_1"
                          (quiet_save "20240101_120000")
                          (quiet_save "20240101_120000"))
                   [1%Q] loc0 [2%Q] loc0 first_start _ _ _ _ _ _
                   eq_refl eq_refl I eq_refl)).
  - vm_compute. reflexivity.
  - vm_compute. reflexivity.
Defined.

Lemma should_update_iff_interval_elapsed_witness :
  last_update_time (fst (_register_new_person 9%Q 50%Q loaded)) !! "Person_4"
  = Some 50%Q /\
  update_interval (fst (_register_new_person 9%Q 50%Q loaded)) = 300 /\
  _should_update_person "Person_4" (50 + 299)%Q
    (fst (_register_new_person 9%Q 50%Q loaded)) = false /\
  _should_update_person "Person_4" (50 + 301)%Q
    (fst (_register_new_person 9%Q 50%Q loaded)) = true.
Proof.
  assert (H : last_update_time (fst (_register_new_person 9%Q 50%Q loaded))
              !! "Person_4" = Some 50%Q) by (vm_compute; reflexivity).
  split; [exact H|]. split; [reflexivity|].
  exact (proj2 (should_update_iff_interval_elapsed "Person_4" 0%Q 50%Q
                  (fst (_register_new_person 9%Q 50%Q loaded)) H) eq_refl).
Defined.

Lemma new_identity_image_persisted_witness :
  _identify_person face_distance 1%Q (trk first_start) = Ok None /\
  save_succeeds (quiet_save "20240101_120000") /\
  fs_writable "Person_1" (disk first_start) /\
  exists w',
    step [1%Q] (face 1%Q 100%Q (quiet_save "20240101_120000")) first_start
    = (w', Ok "Person_1") /\
    ("Person_1_20240101_120000.jpg", Readable [1%Q]) ∈ fs_files "Person_1" (disk w') /\
    _should_update_person "Person_1" 100%Q (trk w') = false.
Proof.
  assert (H1 : _identify_person face_distance 1%Q (trk first_start) = Ok None)
    by reflexivity.
  assert (H2 : save_succeeds (quiet_save "20240101_120000"))
    by (repeat split; reflexivity).
  split; [exact H1|]. split; [exact H2|]. split; [exact I|].
  destruct (new_identity_image_persisted face_distance frame_shape crop [1%Q]
              (face 1%Q 100%Q (quiet_save "20240101_120000")) first_start
              H1 H2 I) as (w' & Hstep & _ & Hfile & Hthrottle).
  exists w'. split; [exact Hstep|]. split; [exact Hfile|].
  apply Hthrottle. reflexivity.
Defined.

(** After a restart without [metadata.json], the folder of [Person_1] is
    on the disk but the ledger has no record of it: an image is written
    for [Person_1] and the ledger still has no record. *)
Lemma existing_folder_gets_no_record :
  let r := save [1%Q] "Person_1" (quiet_save "20240101_130000") restarted in
  fs_exists "Person_1" (disk restarted) = true /\
  person_metadata (trk restarted) !! "Person_1" = None /\
  snd r = Ok "./database/Person_1/Person_1_20240101_130000.jpg" /\
  fs_files "Person_1" (disk (fst r))
  = [("Person_1_20240101_120000.jpg", Readable [1%Q]);
     ("Person_1_20240101_130000.jpg", Readable [1%Q])] /\
  person_metadata (trk (fst r)) !! "Person_1" = None.
Proof. vm_compute. repeat split; reflexivity. Qed.

Lemma save_ledger_cases_witness :
  let env := quiet_save "20240101_120000" in
  save [1%Q] "Person_1" env first_start
  = (fst (save [1%Q] "Person_1" env first_start),
     Ok "./database/Person_1/Person_1_20240101_120000.jpg") /\
  fs_exists "Person_1" (disk first_start) = false /\
  person_metadata (trk (fst (save [1%Q] "Person_1" env first_start))) !! "Person_1"
  = Some (mkMeta (iso_created env) 1 (iso_seen env)).
Proof.
  cbv zeta.
  assert (H : save [1%Q] "Person_1" (quiet_save "20240101_120000") first_start
              = (fst (save [1%Q] "Person_1" (quiet_save "20240101_120000")
                        first_start),
                 Ok "./database/Person_1/Person_1_20240101_120000.jpg"))
    by (vm_compute; reflexivity).
  split; [exact H|]. split; [reflexivity|].
  exact (proj1 (save_ledger_cases frame_shape crop [1%Q] loc0 "Person_1"
                  (quiet_save "20240101_120000") first_start _ _ H) eq_refl).
Defined.

Lemma empty_gallery_registers_witness :
  known_faces (trk first_start) = [] /\
  _identify_person face_distance 1%Q (trk first_start) = Ok None /\
  known_names (trk (fst (step [1%Q] (face 1%Q 100%Q (failing_save "20240101_120000"))
                           first_start)))
  = known_names (trk first_start) ++ [person_name (person_count (trk first_start) + 1)].
Proof.
  split; [reflexivity|].
  destruct (empty_gallery_registers face_distance frame_shape crop [1%Q]
              (face 1%Q 100%Q (failing_save "20240101_120000")) first_start
              eq_refl) as (Hid & _ & Hn & _).
  split; [exact Hid|exact Hn].
Defined.

Lemma reloaded_identity_passes_throttle_witness :
  load disk_gap_unreadable = (loaded, Ok tt) /\
  "Person_1" ∈ known_names loaded /\
  (inject_Z 300 <= 1001)%Q /\
  seen_only_others face_distance frame_shape crop "Person_1" restarted others_seen /\
  known_names (trk others_seen) = ["Person_1"; "Person_3"; "Person_4"] /\
  last_update_time (trk others_seen) !! "Person_3" = Some 1000%Q /\
  last_update_time (trk others_seen) !! "Person_1" = Some 0%Q /\
  _should_update_person "Person_1" 1001%Q (trk others_seen) = true /\
  exists w',
    step [1%Q] (face 1%Q 1001%Q (quiet_save "20240102_090001")) others_seen
    = (w', Ok "Person_1") /\
    ("Person_1_20240102_090001.jpg", Readable [1%Q])
      ∈ fs_files "Person_1" (disk w').
Proof.
  assert (H1 : "Person_1" ∈ known_names loaded) by apply list_elem_of_here.
  assert (H2 : (inject_Z 300 <= 1001)%Q) by (unfold Qle; simpl; lia).
  assert (H3 : seen_only_others face_distance frame_shape crop "Person_1"
                 restarted others_seen).
  { apply (seen_other face_distance frame_shape crop "Person_1" restarted
             [5%Q] (face 5%Q 1000%Q (quiet_save "20240102_090000")) stranger_seen).
    - apply (seen_other face_distance frame_shape crop "Person_1" restarted
               [20%Q] (face 20%Q 1000%Q (quiet_save "20240102_090000")) restarted).
      + apply seen_none.
      + vm_compute. discriminate.
    - vm_compute. discriminate. }
  split; [reflexivity|]. split; [exact H1|]. split; [exact H2|].
  split; [exact H3|]. split; [vm_compute; reflexivity|].
  split; [vm_compute; reflexivity|].
  destruct (reloaded_identity_passes_throttle face_distance face_encodings
              frame_shape crop disk_gap_unreadable "./database" 300 (6 # 10)
              (50, 50) (8 # 10) loaded "Person_1" 1001%Q restarted others_seen
              eq_refl H1 H2 eq_refl H3)
    as (_ & Hz & Hup & Hbody).
  split; [exact Hz|]. split; [exact Hup|].
  destruct (Hbody [1%Q] (face 1%Q 1001%Q (quiet_save "20240102_090001")))
    as (w' & Hstep & Hfile & _).
  - vm_compute. reflexivity.
  - reflexivity.
  - repeat split; reflexivity.
  - vm_compute. reflexivity.
  - exists w'. split; [exact Hstep|exact Hfile].
Defined.

(** ** Further concrete runs *)

Lemma padded_bounds_within_frame_witness :
  frame_shape [1%Q] = (480, 640) /\
  0 <= loc_top loc0 <= loc_bottom loc0 /\ loc_bottom loc0 <= 480 /\
  0 <= loc_left loc0 <= loc_right loc0 /\ loc_right loc0 <= 640 /\
  exists top bottom left right,
    padded_bounds frame_shape [1%Q] loc0 = (top, bottom, left, right) /\
    0 <= top <= loc_top loc0 /\ loc_bottom loc0 <= bottom <= 480.
Proof.
  assert (H1 : 0 <= loc_top loc0 <= loc_bottom loc0) by (simpl; lia).
  assert (H2 : loc_bottom loc0 <= 480) by (simpl; lia).
  assert (H3 : 0 <= loc_left loc0 <= loc_right loc0) by (simpl; lia).
  assert (H4 : loc_right loc0 <= 640) by (simpl; lia).
  split; [reflexivity|]. split; [exact H1|]. split; [exact H2|].
  split; [exact H3|]. split; [exact H4|].
  destruct (padded_bounds_within_frame frame_shape crop [1%Q] loc0 480 640
              eq_refl H1 H2 H3 H4)
    as (top & bottom & left & right & Hb & _ & Ht & _ & Hbo & _).
  exists top, bottom, left, right. split; [exact Hb|]. split; [exact Ht|exact Hbo].
Defined.

Lemma identify_returns_first_nearest_witness :
  parallel tie_tracker /\
  _identify_person face_distance 1%Q tie_tracker = Ok (Some "Person_1") /\
  exists i k,
    known_names tie_tracker !! i = Some "Person_1" /\
    known_faces tie_tracker !! i = Some k /\
    (forall j k', (j < i)%nat -> known_faces tie_tracker !! j = Some k' ->
                  (face_distance k 1 < face_distance k' 1)%Q).
Proof.
  assert (H1 : parallel tie_tracker) by reflexivity.
  assert (H2 : _identify_person face_distance 1%Q tie_tracker
               = Ok (Some "Person_1")) by (vm_compute; reflexivity).
  split; [exact H1|]. split; [exact H2|].
  destruct (identify_returns_first_nearest face_distance 1%Q tie_tracker
              "Person_1" H1 H2) as (i & k & Hn & Hk & _ & _ & Hfirst).
  exists i, k. split; [exact Hn|]. split; [exact Hk|exact Hfirst].
Defined.

Lemma throttled_match_changes_nothing_witness :
  _identify_person face_distance 1%Q (trk seen_once) = Ok (Some "Person_1") /\
  last_update_time (trk seen_once) !! "Person_1" = Some 100%Q /\
  (200 - 100 < inject_Z (update_interval (trk seen_once)))%Q /\
  step [1%Q] (face 1%Q 200%Q (quiet_save "20240101_120140")) seen_once
  = (seen_once, Ok "Person_1").
Proof.
  assert (H1 : _identify_person face_distance 1%Q (trk seen_once)
               = Ok (Some "Person_1")) by (vm_compute; reflexivity).
  assert (H2 : last_update_time (trk seen_once) !! "Person_1" = Some 100%Q)
    by (vm_compute; reflexivity).
  assert (H3 : (200 - 100 < inject_Z (update_interval (trk seen_once)))%Q)
    by (vm_compute; reflexivity).
  split; [exact H1|]. split; [exact H2|]. split; [exact H3|].
  exact (throttled_match_changes_nothing face_distance frame_shape crop [1%Q]
           (face 1%Q 200%Q (quiet_save "20240101_120140")) seen_once
           "Person_1" 100%Q H1 H2 H3).
Defined.

Lemma process_face_touches_one_timer_witness :
  subject_of face_distance (face 1%Q 400%Q (quiet_save "20240101_130000"))
    (trk restarted) <> Some "Person_3" /\
  last_update_time
    (trk (fst (step [1%Q] (face 1%Q 400%Q (quiet_save "20240101_130000"))
                 restarted))) !! "Person_3"
  = last_update_time (trk restarted) !! "Person_3".
Proof.
  assert (H : subject_of face_distance
                (face 1%Q 400%Q (quiet_save "20240101_130000")) (trk restarted)
              <> Some "Person_3") by (vm_compute; discriminate).
  split; [exact H|].
  exact (process_face_touches_one_timer face_distance frame_shape crop [1%Q]
           (face 1%Q 400%Q (quiet_save "20240101_130000")) restarted
           "Person_3" H).
Defined.

Lemma load_gallery_is_loadable_folders_witness :
  load disk_gap_unreadable = (loaded, Ok tt) /\
  known_names loaded
  = known_names fresh
    ++ map de_name (filter (fun ent => is_loaded face_encodings ent = true)
                      (entries disk_gap_unreadable)).
Proof.
  split; [reflexivity|].
  exact (proj1 (load_gallery_is_loadable_folders face_encodings
                  disk_gap_unreadable fresh loaded eq_refl)).
Defined.

Lemma gallery_names_stay_distinct_witness :
  NoDup (map de_name (entries disk_gap_unreadable)) /\
  load disk_gap_unreadable = (loaded, Ok tt) /\
  NoDup (known_names (trk (fst (run reads_failure_then_face restarted)))).
Proof.
  assert (H : NoDup (map de_name (entries disk_gap_unreadable))).
  { apply (bool_decide_unpack
             (NoDup (map de_name (entries disk_gap_unreadable)))).
    vm_compute. exact I. }
  split; [exact H|]. split; [reflexivity|].
  exact (proj2 (gallery_names_stay_distinct face_distance face_encodings
                  frame_shape crop disk_gap_unreadable "./database" 300
                  (6 # 10) (50, 50) (8 # 10) loaded true
                  reads_failure_then_face false false restarted H eq_refl
                  eq_refl)).
Defined.

Lemma headless_loop_breaks_only_on_read_failure_witness :
  tracking_loop face_distance frame_shape crop false
    [GotFrame [1%Q] [] true; ReadFailed] first_start
  = (on_trk (add_log FailedToReadFrame) first_start, Broke) /\
  ReadFailed ∈ [GotFrame [1%Q] [] true; @ReadFailed Embedding Frame].
Proof.
  assert (H : tracking_loop face_distance frame_shape crop false
                [GotFrame [1%Q] [] true; ReadFailed] first_start
              = (on_trk (add_log FailedToReadFrame) first_start, Broke))
    by reflexivity.
  split; [exact H|].
  exact (headless_loop_breaks_only_on_read_failure face_distance frame_shape
           crop _ first_start _ H).
Defined.

Lemma start_tracking_always_cleans_up_witness :
  run reads_failure_then_face first_start
  = (fst (run reads_failure_then_face first_start), Returned) /\
  Returned <> Running /\
  CleaningUp ∈ log (trk (fst (run reads_failure_then_face first_start))).
Proof.
  assert (H : run reads_failure_then_face first_start
              = (fst (run reads_failure_then_face first_start), Returned))
    by (vm_compute; reflexivity).
  assert (H' : Returned <> Running) by discriminate.
  split; [exact H|]. split; [exact H'|].
  exact (proj1 (start_tracking_always_cleans_up face_distance frame_shape crop
                  true reads_failure_then_face false false first_start _
                  Returned H H')).
Defined.

Lemma ledger_file_in_sync_after_save_witness :
  save [1%Q] "Person_1" (quiet_save "20240101_120000") first_start
  = (fst (save [1%Q] "Person_1" (quiet_save "20240101_120000") first_start),
     Ok "./database/Person_1/Person_1_20240101_120000.jpg") /\
  is_Some (person_metadata
             (trk (fst (save [1%Q] "Person_1" (quiet_save "20240101_120000")
                          first_start))) !! "Person_1") /\
  metadata_json
    (disk (fst (save [1%Q] "Person_1" (quiet_save "20240101_120000") first_start)))
  = MetaPresent
      (person_metadata
         (trk (fst (save [1%Q] "Person_1" (quiet_save "20240101_120000")
                      first_start)))).
Proof.
  assert (H1 : save [1%Q] "Person_1" (quiet_save "20240101_120000") first_start
    = (fst (save [1%Q] "Person_1" (quiet_save "20240101_120000") first_start),
       Ok "./database/Person_1/Person_1_20240101_120000.jpg"))
    by (vm_compute; reflexivity).
  assert (H2 : is_Some (person_metadata
             (trk (fst (save [1%Q] "Person_1" (quiet_save "20240101_120000")
                          first_start))) !! "Person_1"))
    by (vm_compute; eauto).
  split; [exact H1|]. split; [exact H2|].
  exact (ledger_file_in_sync_after_save frame_shape crop [1%Q] loc0 "Person_1"
           (quiet_save "20240101_120000") first_start _ _ H1 H2).
Defined.

Lemma unwritten_image_is_still_counted_witness :
  imwrite (unwritten_save "20240101_121000") = NotWritten /\
  meta_write_update_fails (unwritten_save "20240101_121000") = false /\
  fs_exists "Person_1" (disk seen_once) = true /\
  fs_writable "Person_1" (disk seen_once) /\
  person_metadata (trk seen_once) !! "Person_1"
  = Some (mkMeta "2024-01-01T12:00:00" 1 "2024-01-01T12:00:00") /\
  exists w',
    save [1%Q] "Person_1" (unwritten_save "20240101_121000") seen_once
    = (w', Ok "./database/Person_1/Person_1_20240101_121000.jpg") /\
    fs_files "Person_1" (disk w') = fs_files "Person_1" (disk seen_once) /\
    person_metadata (trk w') !! "Person_1"
    = Some (mkMeta "2024-01-01T12:00:00" 2 "2024-01-01T12:10:00").
Proof.
  assert (H3 : fs_exists "Person_1" (disk seen_once) = true)
    by (vm_compute; reflexivity).
  assert (H4 : fs_writable "Person_1" (disk seen_once))
    by (vm_compute; reflexivity).
  assert (H5 : person_metadata (trk seen_once) !! "Person_1"
               = Some (mkMeta "2024-01-01T12:00:00" 1 "2024-01-01T12:00:00"))
    by (vm_compute; reflexivity).
  split; [reflexivity|]. split; [reflexivity|]. split; [exact H3|].
  split; [exact H4|]. split; [exact H5|].
  destruct (unwritten_image_is_still_counted frame_shape crop [1%Q] loc0
              "Person_1" (unwritten_save "20240101_121000") seen_once _
              eq_refl eq_refl H3 H4 H5) as (w' & Hs & Hf & Hm & _).
  exists w'. split; [exact Hs|]. split; [exact Hf|exact Hm].
Defined.


Lemma get_statistics_counts_files_witness :
  (forall name, name ∈ known_names (trk seen_once) ->
                fs_writable name (disk seen_once)) /\
  exists st,
    get_statistics seen_once = Ok st /\
    total_persons st = Z.of_nat (length (known_names (trk seen_once))).
Proof.
  assert (H : forall name, name ∈ known_names (trk seen_once) ->
                           fs_writable name (disk seen_once)).
  { intros name Hin. apply list_elem_of_singleton in Hin. subst name.
    vm_compute. reflexivity. }
  split; [exact H|].
  destruct (get_statistics_counts_files seen_once H) as (st & Hst & Ht & _).
  exists st. split; [exact Hst|exact Ht].
Defined.

Lemma get_statistics_raises_on_plain_file_witness :
  "Person_1" ∈ known_names (trk plain_file_world) /\
  fs_lookup "Person_1" (disk plain_file_world)
  = Some (mkDirEnt "Person_1" false []) /\
  de_isdir (mkDirEnt (Image := Image) "Person_1" false []) = false /\
  get_statistics plain_file_world = Raise OSError.
Proof.
  assert (H1 : "Person_1" ∈ known_names (trk plain_file_world))
    by apply list_elem_of_here.
  split; [exact H1|]. split; [reflexivity|]. split; [reflexivity|].
  exact (get_statistics_raises_on_plain_file plain_file_world "Person_1"
           (mkDirEnt "Person_1" false []) H1 eq_refl eq_refl).
Defined.

Lemma statistics_after_save_witness :
  save [1%Q] "Person_1" (quiet_save "20240101_120500") seen_once
  = (fst (save [1%Q] "Person_1" (quiet_save "20240101_120500") seen_once),
     Ok "./database/Person_1/Person_1_20240101_120500.jpg") /\
  imwrite (quiet_save "20240101_120500") = Written /\
  "Person_1" ∈ known_names (trk seen_once) /\
  (forall name, name ∈ known_names (trk seen_once) ->
                fs_writable name (disk seen_once)) /\
  exists st,
    get_statistics
      (fst (save [1%Q] "Person_1" (quiet_save "20240101_120500") seen_once))
    = Ok st /\
    st_total_images <$> persons st !! "Person_1" = Some 2.
Proof.
  assert (H1 : save [1%Q] "Person_1" (quiet_save "20240101_120500") seen_once
    = (fst (save [1%Q] "Person_1" (quiet_save "20240101_120500") seen_once),
       Ok "./database/Person_1/Person_1_20240101_120500.jpg"))
    by (vm_compute; reflexivity).
  assert (H3 : "Person_1" ∈ known_names (trk seen_once))
    by apply list_elem_of_here.
  assert (H4 : forall name, name ∈ known_names (trk seen_once) ->
                            fs_writable name (disk seen_once)).
  { intros name Hin. apply list_elem_of_singleton in Hin. subst name.
    vm_compute. reflexivity. }
  split; [exact H1|]. split; [reflexivity|]. split; [exact H3|].
  split; [exact H4|].
  destruct (statistics_after_save frame_shape crop [1%Q] loc0 "Person_1"
              (quiet_save "20240101_120500") seen_once _ _ H1 eq_refl H3 H4)
    as (st & Hst & Hp).
  exists st. split; [exact Hst|]. rewrite Hp. reflexivity.
Defined.

Lemma registered_identity_survives_restart_witness :
  _identify_person face_distance 1%Q (trk first_start) = Ok None /\
  fs_lookup (person_name (person_count (trk first_start) + 1)) (disk first_start)
  = None /\
  step [1%Q] (face 1%Q 100%Q (quiet_save "20240101_120000")) first_start
  = (seen_once, Ok "Person_1") /\
  face_encodings (face_region frame_shape crop [1%Q] loc0) = [1%Q] /\
  load (disk seen_once) = (fst (load (disk seen_once)), Ok tt) /\
  person_name (person_count (trk first_start) + 1)
    ∈ known_names (fst (load (disk seen_once))) /\
  person_count (trk first_start) + 1 <= person_count (fst (load (disk seen_once))).
Proof.
  assert (H1 : _identify_person face_distance 1%Q (trk first_start) = Ok None)
    by reflexivity.
  assert (H2 : fs_lookup (person_name (person_count (trk first_start) + 1))
                 (disk first_start) = None) by reflexivity.
  assert (H3 : step [1%Q] (face 1%Q 100%Q (quiet_save "20240101_120000"))
                 first_start = (seen_once, Ok "Person_1"))
    by (vm_compute; reflexivity).
  assert (H4 : face_encodings (face_region frame_shape crop [1%Q] loc0) = [1%Q])
    by reflexivity.
  assert (H5 : load (disk seen_once) = (fst (load (disk seen_once)), Ok tt))
    by (vm_compute; reflexivity).
  split; [exact H1|]. split; [exact H2|]. split; [exact H3|].
  split; [exact H4|]. split; [exact H5|].
  destruct (registered_identity_survives_restart face_distance face_encodings
              frame_shape crop [1%Q]
              (face 1%Q 100%Q (quiet_save "20240101_120000"))
              first_start seen_once fresh _ 1%Q [] "Person_1"
              H1 H2 eq_refl H3 H4 H5) as (_ & Hn & _ & Hc).
  split; [exact Hn|exact Hc].
Defined.
